(** * Cumulative usage sensor (src/sensor.py): a shallow embedding

    The development embeds [CumulativeUsageSensor] of [src/sensor.py]:
    the sensor's state dictionary [self._state], its persistence to a JSON
    file ([_load_persisted], [_save_persisted]), the state-change handler
    [_handle_state_change], [reset_timer], the two read-only properties
    [native_value] and [extra_state_attributes], and the state-change
    subscription of [async_added_to_hass].

    Numbers of the Python program (ints and floats) are modelled as exact
    rationals [Q]; floating-point rounding is out of scope.  Python
    exceptions are an explicit result of every operation. *)

From Stdlib Require Import String Ascii List Arith Lia ZArith QArith Bool.
Import ListNotations.

(* ================================================================= *)
(** ** [datetime] values and their ISO-8601 text form

    [isoformat] and [fromisoformat] as CPython 3.11 implements them in C
    ([Modules/_datetimemodule.c]), on the UTF-8 bytes of the string (a
    string holding a lone surrogate, which has no UTF-8 form, is out of
    scope). *)

Module DateTime.

Local Open Scope Z_scope.

(** A [datetime.datetime] without its [tzinfo] (the wall-clock fields). *)
Record datetime := mk_datetime {
  year : Z; month : Z; day : Z;
  hour : Z; minute : Z; second : Z; microsecond : Z }.

Definition is_leap (y : Z) : bool :=
  (y mod 4 =? 0) && (negb (y mod 100 =? 0) || (y mod 400 =? 0)).

Definition days_in_month (y m : Z) : Z :=
  if m =? 2 then (if is_leap y then 29 else 28)
  else if (m =? 4) || (m =? 6) || (m =? 9) || (m =? 11) then 30
  else 31.

(** The range checks of the [datetime] constructor ([ValueError] otherwise). *)
Definition check_fields (d : datetime) : bool :=
  (1 <=? year d) && (year d <=? 9999) &&
  (1 <=? month d) && (month d <=? 12) &&
  (1 <=? day d) && (day d <=? days_in_month (year d) (month d)) &&
  (0 <=? hour d) && (hour d <? 24) && (0 <=? minute d) && (minute d <? 60) &&
  (0 <=? second d) && (second d <? 60) &&
  (0 <=? microsecond d) && (microsecond d <? 1000000).

(** The ASCII digit of [d] (for [d < 10]). *)
Definition digit_char (d : Z) : ascii := ascii_of_nat (Z.to_nat (48 + d)).

(** The value of an ASCII digit, [None] for any other character. *)
Definition digit_val (c : ascii) : option Z :=
  let n := Z.of_nat (nat_of_ascii c) in
  if (48 <=? n) && (n <=? 57) then Some (n - 48) else None.

(** ["%0*d" % (w, v)]: [v] written with exactly [w] decimal digits. *)
Fixpoint pad (w : nat) (v : Z) : list ascii :=
  match w with
  | O => []
  | S w' => digit_char ((v / 10 ^ Z.of_nat w') mod 10) :: pad w' v
  end.

Definition dash : ascii := "-"%char.
Definition colon : ascii := ":"%char.
Definition dot : ascii := "."%char.
Definition comma : ascii := ","%char.
Definition tee : ascii := "T"%char.
Definition plus : ascii := "+"%char.
Definition zulu : ascii := "Z"%char.
Definition week_mark : ascii := "W"%char.
Definition nul : ascii := "000"%char.

(** [datetime.isoformat()] with the default [sep='T'] and
    [timespec='auto']: the microseconds are written only when non-zero.
    An aware value appends [format_offset] of its UTC offset. *)
Definition isoformat (d : datetime) : list ascii :=
  pad 4 (year d) ++ dash :: pad 2 (month d) ++ dash :: pad 2 (day d) ++
  tee :: pad 2 (hour d) ++ colon :: pad 2 (minute d) ++ colon ::
  pad 2 (second d) ++
  (if microsecond d =? 0 then [] else dot :: pad 6 (microsecond d)).

(** The [+HH:MM[:SS[.ffffff]]] suffix [isoformat] writes for a UTC offset
    of [off] microseconds ([format_utcoffset] with [sep=':']). *)
Definition format_offset (off : Z) : list ascii :=
  let a := Z.abs off in
  let ss := (a / 1000000) mod 60 in
  let us := a mod 1000000 in
  (if off <? 0 then dash else plus) ::
  pad 2 (a / 3600000000) ++ colon :: pad 2 ((a / 60000000) mod 60) ++
  (if (ss =? 0) && (us =? 0) then []
   else colon :: pad 2 ss ++ (if us =? 0 then [] else dot :: pad 6 us)).

(** The C parser reads the UTF-8 bytes of the string through a pointer;
    the buffer is NUL-terminated, so a read past the end yields [NUL]. *)
Definition char_at (s : list ascii) (i : nat) : ascii := nth i s nul.

Definition is_digit (c : ascii) : bool :=
  match digit_val c with Some _ => true | None => false end.

(** [parse_digits]: [n] digits from position [p], or failure. *)
Fixpoint parse_digits (s : list ascii) (p n : nat) (acc : Z) : option (Z * nat) :=
  match n with
  | O => Some (acc, p)
  | S n' =>
      match digit_val (char_at s p) with
      | Some d => parse_digits s (S p) n' (acc * 10 + d)
      | None => None
      end
  end.

(** The number of leading ASCII digits. *)
Fixpoint digit_run (l : list ascii) : nat :=
  match l with
  | c :: r => if is_digit c then S (digit_run r) else O
  | [] => O
  end.

(** [_find_isoformat_datetime_separator]: the length of the date part. *)
Definition find_separator (s : list ascii) : option nat :=
  let len := length s in
  if Nat.eqb len 7 then Some 7%nat
  else if Ascii.eqb (char_at s 4) dash then
    if Ascii.eqb (char_at s 5) week_mark then
      if Nat.ltb len 8 then None
      else if Nat.ltb 8 len && Ascii.eqb (char_at s 8) dash then
        if Nat.eqb len 9 then None
        else if Nat.ltb 10 len && is_digit (char_at s 10) then Some 8%nat
        else Some 10%nat
      else Some 8%nat
    else Some 10%nat
  else if Ascii.eqb (char_at s 4) week_mark then
    let idx := (7 + digit_run (skipn 7 s))%nat in
    if Nat.ltb idx 9 then Some idx
    else if Nat.even idx then Some 7%nat else Some 8%nat
  else Some 8%nat.

(** A calendar date, or an ISO week date still to be converted. *)
Inductive iso_date :=
| Calendar (y m d : Z)
| Week (y w d : Z).

(** [parse_isoformat_date] on the first [len] bytes: [YYYY-MM-DD],
    [YYYYMMDD], [YYYY-Www[-D]] or [YYYYWww[D]]. *)
Definition parse_isoformat_date (s : list ascii) (len : nat) : option iso_date :=
  match parse_digits s 0 4 0 with
  | None => None
  | Some (y, p) =>
      let sep := Ascii.eqb (char_at s p) dash in
      let p := if sep then S p else p in
      if Ascii.eqb (char_at s p) week_mark then
        match parse_digits s (S p) 2 0 with
        | None => None
        | Some (w, p) =>
            if Nat.ltb p len then
              if sep && negb (Ascii.eqb (char_at s p) dash) then None else
              let p := if sep then S p else p in
              match parse_digits s p 1 0 with
              | None => None
              | Some (d, _) => Some (Week y w d)
              end
            else Some (Week y w 1)
        end
      else
        match parse_digits s p 2 0 with
        | None => None
        | Some (m, p) =>
            if sep && negb (Ascii.eqb (char_at s p) dash) then None else
            let p := if sep then S p else p in
            match parse_digits s p 2 0 with
            | None => None
            | Some (d, _) => Some (Calendar y m d)
            end
        end
  end.

(** The proleptic Gregorian ordinal helpers of [_datetimemodule.c]. *)
Definition days_before_year (y : Z) : Z :=
  let y1 := y - 1 in y1 * 365 + y1 / 4 - y1 / 100 + y1 / 400.

Definition days_before_month (y m : Z) : Z :=
  match m with
  | 1 => 0 | 2 => 31 | 3 => 59 | 4 => 90 | 5 => 120 | 6 => 151
  | 7 => 181 | 8 => 212 | 9 => 243 | 10 => 273 | 11 => 304 | 12 => 334
  | _ => 0
  end + (if (2 <? m) && is_leap y then 1 else 0).

Definition ymd_to_ord (y m d : Z) : Z :=
  days_before_year y + days_before_month y m + d.

Definition ord_to_ymd (ordinal : Z) : Z * Z * Z :=
  let o := ordinal - 1 in
  let n400 := o / 146097 in let n := o mod 146097 in
  let n100 := n / 36524 in let n := n mod 36524 in
  let n4 := n / 1461 in let n := n mod 1461 in
  let n1 := n / 365 in let n := n mod 365 in
  let y := n400 * 400 + 1 + n100 * 100 + n4 * 4 + n1 in
  if (n1 =? 4) || (n100 =? 4) then (y - 1, 12, 31)
  else
    let m := Z.shiftr (n + 50) 5 in
    let preceding := days_before_month y m in
    if n <? preceding then
      (y, m - 1, n - days_before_month y (m - 1) + 1)
    else (y, m, n - preceding + 1).

Definition iso_week1_monday (y : Z) : Z :=
  let first_day := ymd_to_ord y 1 1 in
  let first_weekday := (first_day + 6) mod 7 in
  let week1_monday := first_day - first_weekday in
  if 3 <? first_weekday then week1_monday + 7 else week1_monday.

(** [iso_to_ymd]: the calendar date of an ISO week date; [None] where the
    C code raises (year below 1, week or weekday out of range). *)
Definition iso_to_ymd (y w d : Z) : option (Z * Z * Z) :=
  if y <? 1 then None else
  let first_weekday := (ymd_to_ord y 1 1 + 6) mod 7 in
  if ((w <=? 0) || (53 <=? w)) &&
     negb ((w =? 53) && ((first_weekday =? 3) || ((first_weekday =? 2) && is_leap y)))
  then None
  else if (d <=? 0) || (8 <=? d) then None
  else Some (ord_to_ymd (iso_week1_monday y + (w - 1) * 7 + d - 1)).

(** What [parse_hh_mm_ss_ff] does after reading one two-digit component. *)
Inductive hms_step :=
| Done (rest : bool)
| Next (p : nat)
| Fraction (p : nat)
| Bad.

Definition after_component (s : list ascii) (p p_end : nat) (has_sep : bool) : hms_step :=
  let c := char_at s p in
  if Nat.leb p_end (S p) then Done (negb (Ascii.eqb c nul))
  else if has_sep && Ascii.eqb c colon then Next (S p)
  else if Ascii.eqb c dot || Ascii.eqb c comma then Fraction (S p)
  else if negb has_sep then Next p
  else Bad.

(** The fraction: at most six digits are read, a shorter one is scaled
    by [correction_factors], further digits are skipped; the flag tells
    whether bytes are left after them. *)
Definition parse_fraction (s : list ascii) (p p_end : nat) : option (bool * Z) :=
  let to_parse := Nat.min (p_end - p) 6 in
  match parse_digits s p to_parse 0 with
  | None => None
  | Some (us, q) =>
      let us := us * 10 ^ (6 - Z.of_nat to_parse) in
      let q := (q + digit_run (skipn q s))%nat in
      Some (negb (Ascii.eqb (char_at s q) nul), us)
  end.

(** [parse_hh_mm_ss_ff]: [HH[:MM[:SS[.fff]]]] or the compact
    [HH[MM[SS[.fff]]]]; the flag tells whether bytes are left over. *)
Definition parse_hh_mm_ss_ff (s : list ascii) (p p_end : nat)
  : option (bool * Z * Z * Z * Z) :=
  let frac h m sec q :=
    match parse_fraction s q p_end with
    | Some (rest, us) => Some (rest, h, m, sec, us)
    | None => None
    end in
  match parse_digits s p 2 0 with
  | None => None
  | Some (h, p) =>
      let has_sep := Ascii.eqb (char_at s p) colon in
      match after_component s p p_end has_sep with
      | Bad => None
      | Done rest => Some (rest, h, 0, 0, 0)
      | Fraction q => frac h 0 0 q
      | Next p =>
          match parse_digits s p 2 0 with
          | None => None
          | Some (m, p) =>
              match after_component s p p_end has_sep with
              | Bad => None
              | Done rest => Some (rest, h, m, 0, 0)
              | Fraction q => frac h m 0 q
              | Next p =>
                  match parse_digits s p 2 0 with
                  | None => None
                  | Some (sec, p) =>
                      match after_component s p p_end has_sep with
                      | Bad => None
                      | Done rest => Some (rest, h, m, sec, 0)
                      | Fraction q | Next q => frac h m sec q
                      end
                  end
              end
          end
      end
  end.

(** [parse_isoformat_time]: the time, then an optional time zone
    introduced by ['Z'], ['+'] or ['-']; the offset is returned in
    microseconds, an offset of zero whole seconds being UTC. *)
Definition is_tz_char (c : ascii) : bool :=
  Ascii.eqb c zulu || Ascii.eqb c plus || Ascii.eqb c dash.

(** The first time-zone character of the time part (or its end). *)
Fixpoint scan_tz (s : list ascii) (q fuel : nat) : nat :=
  if is_tz_char (char_at s q) then q
  else match fuel with
       | O => S q
       | S f => scan_tz s (S q) f
       end.

Definition parse_isoformat_time (s : list ascii) (p p_end : nat)
  : option (Z * Z * Z * Z * option Z) :=
  let tz := scan_tz s p (p_end - p - 1) in
  match parse_hh_mm_ss_ff s p tz with
  | None => None
  | Some (rest, h, m, sec, us) =>
      if Nat.eqb tz p_end then
        if rest then None else Some (h, m, sec, us, None)
      else if Ascii.eqb (char_at s tz) zulu then
        if Ascii.eqb (char_at s (S tz)) nul then Some (h, m, sec, us, Some 0) else None
      else
        let sign := if Ascii.eqb (char_at s tz) dash then -1 else 1 in
        match parse_hh_mm_ss_ff s (S tz) p_end with
        | None => None
        | Some (true, _, _, _, _) => None
        | Some (false, th, tm, ts, tus) =>
            let secs := th * 3600 + tm * 60 + ts in
            Some (h, m, sec, us,
                  Some (if secs =? 0 then 0 else sign * (secs * 1000000 + tus)))
        end
  end.

(** The byte length of the UTF-8 sequence that starts with [c]: the
    separator is skipped as one code point. *)
Definition utf8_width (c : ascii) : nat :=
  let b := nat_of_ascii c in
  if Nat.ltb b 128 then 1 else if Nat.ltb b 224 then 2
  else if Nat.ltb b 240 then 3 else 4.

(** [timezone(timedelta(...))] requires [-24h < offset < 24h]. *)
Definition offset_ok (tz : option Z) : bool :=
  match tz with
  | None => true
  | Some off => (-86400000000 <? off) && (off <? 86400000000)
  end.

(** [datetime.fromisoformat] (CPython 3.11, [datetime_fromisoformat]): the
    date, then after a separator of one code point an optional time and
    time zone; the constructor's range checks reject out-of-range fields.
    [None] stands for [ValueError]; the result pairs the fields with the
    UTC offset in microseconds ([None] for a naive value). *)
Definition fromisoformat (s : list ascii) : option (datetime * option Z) :=
  let len := length s in
  if Nat.ltb len 7 then None else
  match find_separator s with
  | None => None
  | Some sep =>
      match parse_isoformat_date s sep with
      | None => None
      | Some date =>
          let ymd := match date with
                     | Calendar y m d => Some (y, m, d)
                     | Week y w d => iso_to_ymd y w d
                     end in
          let time := if Nat.ltb sep len
                      then parse_isoformat_time s (sep + utf8_width (char_at s sep)) len
                      else Some (0, 0, 0, 0, None) in
          match ymd, time with
          | Some (y, m, d), Some (h, mi, sec, us, tz) =>
              let r := mk_datetime y m d h mi sec us in
              if check_fields r && offset_ok tz then Some (r, tz) else None
          | _, _ => None
          end
      end
  end.

Definition isoformat_str (d : datetime) : string :=
  string_of_list_ascii (isoformat d).

Definition fromisoformat_str (s : string) : option (datetime * option Z) :=
  fromisoformat (list_ascii_of_string s).

Lemma digit_val_mod x : digit_val (digit_char (x mod 10)) = Some (x mod 10).
Proof.
  assert (H : 0 <= x mod 10 < 10) by (apply Z.mod_pos_bound; lia).
  set (d := x mod 10) in *. clearbody d.
  assert (d = 0 \/ d = 1 \/ d = 2 \/ d = 3 \/ d = 4 \/ d = 5 \/ d = 6 \/
          d = 7 \/ d = 8 \/ d = 9) as Hd by lia.
  repeat destruct Hd as [-> | Hd]; try reflexivity; subst; reflexivity.
Qed.

Lemma digit_neq_mod x c : digit_val c = None -> Ascii.eqb (digit_char (x mod 10)) c = false.
Proof.
  intro Hc. destruct (Ascii.eqb_spec (digit_char (x mod 10)) c) as [E|]; [|reflexivity].
  rewrite <- E, digit_val_mod in Hc. discriminate.
Qed.

Lemma is_digit_mod x : is_digit (digit_char (x mod 10)) = true.
Proof. unfold is_digit. now rewrite digit_val_mod. Qed.

Lemma is_tz_mod x : is_tz_char (digit_char (x mod 10)) = false.
Proof. unfold is_tz_char. now rewrite !digit_neq_mod by reflexivity. Qed.

Lemma utf8_tee : utf8_width tee = 1%nat.
Proof. reflexivity. Qed.

Lemma digits2 v : 0 <= v < 100 -> (v / 10) mod 10 * 10 + (v / 1) mod 10 = v.
Proof. intro H. rewrite Z.div_1_r. rewrite (Z.mod_small (v / 10)) by (split; [apply Z.div_pos|apply Z.div_lt_upper_bound]; lia).
  pose proof (Z.div_mod v 10). lia. Qed.
Lemma digit_step v k k10 : 0 < k -> k10 = k * 10 -> (v / k10) * 10 + (v / k) mod 10 = v / k.
Proof. intros Hk ->. rewrite <- Z.div_div by lia. pose proof (Z.div_mod (v / k) 10). lia. Qed.
Lemma digits4 v : 0 <= v < 10000 ->
  (((v / 1000) mod 10 * 10 + (v / 100) mod 10) * 10 + (v / 10) mod 10) * 10 + (v / 1) mod 10 = v.
Proof. intro H.
  rewrite (Z.mod_small (v / 1000)) by (split; [apply Z.div_pos|apply Z.div_lt_upper_bound]; lia).
  rewrite (digit_step v 100 1000) by lia. rewrite (digit_step v 10 100) by lia.
  rewrite (digit_step v 1 10) by lia. apply Z.div_1_r. Qed.
Lemma digits6 v : 0 <= v < 1000000 ->
  (((((v / 100000) mod 10 * 10 + (v / 10000) mod 10) * 10 + (v / 1000) mod 10) * 10 + (v / 100) mod 10) * 10 + (v / 10) mod 10) * 10 + (v / 1) mod 10 = v.
Proof. intro H.
  rewrite (Z.mod_small (v / 100000)) by (split; [apply Z.div_pos|apply Z.div_lt_upper_bound]; lia).
  rewrite (digit_step v 10000 100000) by lia. rewrite (digit_step v 1000 10000) by lia.
  rewrite (digit_step v 100 1000) by lia. rewrite (digit_step v 10 100) by lia.
  rewrite (digit_step v 1 10) by lia. apply Z.div_1_r. Qed.

Local Arguments digit_char : simpl never.

(** A valid naive [datetime] survives [fromisoformat (isoformat d)]. *)
Lemma fromisoformat_isoformat_fields y m dd h mi sc us :
  check_fields (mk_datetime y m dd h mi sc us) = true ->
  fromisoformat (isoformat (mk_datetime y m dd h mi sc us)) = Some (mk_datetime y m dd h mi sc us, None).
Proof.
  intro Hc.
  unfold isoformat. cbn [year month day hour minute second microsecond].
  pose proof Hc as Hc0.
  unfold check_fields in Hc. cbn [year month day hour minute second microsecond] in Hc.
  repeat rewrite andb_true_iff in Hc. rewrite ?Z.leb_le, ?Z.ltb_lt in Hc.
  assert (Hdim : days_in_month y m <= 31).
  { unfold days_in_month. destruct (m =? 2); [destruct (is_leap y)|];
    [lia | lia | destruct (_ || _); lia]. }
  destruct (Z.eqb_spec us 0) as [Hus|Hus];
    unfold fromisoformat, find_separator, parse_isoformat_date, parse_isoformat_time,
      parse_hh_mm_ss_ff, after_component, parse_fraction, is_tz_char, char_at; cbn;
    repeat (rewrite ?utf8_tee, ?digit_val_mod, ?is_digit_mod, ?is_tz_mod, ?(digit_neq_mod _ dash), ?(digit_neq_mod _ week_mark), ?(digit_neq_mod _ colon), ?(digit_neq_mod _ dot), ?(digit_neq_mod _ comma), ?(digit_neq_mod _ nul) by reflexivity; cbn);
    match goal with |- (if check_fields ?r && _ then _ else _) = _ =>
      replace r with (mk_datetime y m dd h mi sc us)
        by (f_equal; try symmetry; rewrite ?Z.mul_1_r; first [apply digits4 | apply digits2 | apply digits6 | idtac]; lia) end;
    rewrite Hc0; reflexivity.
Qed.

Lemma fromisoformat_isoformat d :
  check_fields d = true -> fromisoformat (isoformat d) = Some (d, None).
Proof. destruct d. apply fromisoformat_isoformat_fields. Qed.

Lemma fromisoformat_str_isoformat_str d :
  check_fields d = true -> fromisoformat_str (isoformat_str d) = Some (d, None).
Proof.
  intro H. unfold fromisoformat_str, isoformat_str.
  rewrite list_ascii_of_string_of_list_ascii. now apply fromisoformat_isoformat.
Qed.

(** Whatever [fromisoformat] accepts passes the constructor's checks. *)
Lemma fromisoformat_valid s d tz :
  fromisoformat s = Some (d, tz) -> check_fields d && offset_ok tz = true.
Proof.
  unfold fromisoformat. destruct (Nat.ltb _ _); [discriminate|].
  destruct (find_separator s) as [sep|]; [|discriminate].
  destruct (parse_isoformat_date s sep) as [date|]; [|discriminate].
  destruct (match date with Calendar _ _ _ => _ | Week _ _ _ => _ end) as [[[y m] dd]|];
    [|discriminate].
  destruct (if Nat.ltb sep _ then _ else _) as [[[[[h mi] sc] us] tz']|]; [|discriminate].
  destruct (check_fields _ && offset_ok _) eqn:E; [|discriminate].
  intros [= <- <-]. exact E.
Qed.

End DateTime.

(* ================================================================= *)
(** ** The sensor object, its file and the clock *)

Module Sensor.

Import DateTime.
Local Open Scope string_scope.

Local Set Warnings "-register-all".

(** Values as [json.load] returns them. *)
Inductive json :=
| JNull
| JBool (b : bool)
| JNum (q : Q)
| JStr (s : string)
| JArr (l : list json)
| JObj (l : list (string * json)).

(** A value stored in [self._state]: a value read from JSON (or the
    literal [0]), a naive [datetime], or an aware one whose [tzinfo] is a
    fixed UTC offset of [off] microseconds. *)
Inductive pyval :=
| VJson (j : json)
| VDate (d : datetime)
| VAware (d : datetime) (off : Z).

(** The [datetime] object [fromisoformat] builds from its parse. *)
Definition dt_value (r : datetime * option Z) : pyval :=
  match r with
  | (d, None) => VDate d
  | (d, Some off) => VAware d off
  end.

(** A Python [dict] with string keys, in insertion order. *)
Definition dict := list (string * pyval).

Fixpoint dict_get (k : string) (d : dict) : option pyval :=
  match d with
  | [] => None
  | (k', v) :: r => if String.eqb k k' then Some v else dict_get k r
  end.

(** [d[k] = v]: an existing key keeps its position. *)
Fixpoint dict_set (k : string) (v : pyval) (d : dict) : dict :=
  match d with
  | [] => [(k, v)]
  | (k', v') :: r =>
      if String.eqb k k' then (k, v) :: r else (k', v') :: dict_set k v r
  end.

(** [d.pop(k)]: [None] when the key is missing ([KeyError]). *)
Fixpoint dict_pop (k : string) (d : dict) : option (pyval * dict) :=
  match d with
  | [] => None
  | (k', v) :: r =>
      if String.eqb k k' then Some (v, r)
      else match dict_pop k r with
           | Some (x, r') => Some (x, (k', v) :: r')
           | None => None
           end
  end.

Definition dict_has (k : string) (d : dict) : bool :=
  match dict_get k d with Some _ => true | None => false end.

(** The [dict] that [json.load] builds from the members of a JSON object:
    a repeated key keeps its first position and its last value. *)
Definition dict_of_pairs (ps : list (string * json)) : dict :=
  fold_left (fun d '(k, v) => dict_set k (VJson v) d) ps [].

(** Python exceptions the operations can raise. *)
Inductive exn := TypeError | KeyError | AttributeError | ValueError | OSError.

Inductive outcome (A : Type) :=
| Ok (a : A)
| Raise (e : exn).
Arguments Ok {A} a.
Arguments Raise {A} e.

(** The file at [self._filepath], as [json.load] sees it: text it rejects,
    or text it decodes to a JSON value. *)
Inductive file_content :=
| Unparseable
| Parsed (j : json).

(** Everything the sensor's methods read or write: [self._state], the
    file at [self._filepath] ([None] when [os.path.exists] is false),
    whether the file can be opened for reading and for writing, and the
    number of [datetime.now()] calls made so far. *)
Record world := mk_world {
  w_state : option dict;
  w_file : option file_content;
  w_can_read : bool;
  w_can_write : bool;
  w_tick : nat }.

Definition set_state (s : option dict) (w : world) : world :=
  mk_world s (w_file w) (w_can_read w) (w_can_write w) (w_tick w).
Definition set_file (f : option file_content) (w : world) : world :=
  mk_world (w_state w) f (w_can_read w) (w_can_write w) (w_tick w).
Definition bump_tick (w : world) : world :=
  mk_world (w_state w) (w_file w) (w_can_read w) (w_can_write w) (S (w_tick w)).

(** A state and exception monad: the world changes made before an
    exception is raised are kept, as in Python. *)
Definition M (A : Type) := world -> outcome A * world.

Definition ret {A} (a : A) : M A := fun w => (Ok a, w).
Definition raise {A} (e : exn) : M A := fun w => (Raise e, w).
Definition bind {A B} (m : M A) (k : A -> M B) : M B :=
  fun w => match m w with
           | (Ok a, w') => k a w'
           | (Raise e, w') => (Raise e, w')
           end.
(** [try: body except Exception: handler]. *)
Definition try_except {A} (body : M A) (handler : exn -> M A) : M A :=
  fun w => match body w with
           | (Ok a, w') => (Ok a, w')
           | (Raise e, w') => handler e w'
           end.

Local Notation "x <- c ;; k" := (bind c (fun x => k))
  (at level 61, c at next level, right associativity).
Local Notation "c ;; k" := (bind c (fun _ => k))
  (at level 61, right associativity).

Definition get_state : M (option dict) := fun w => (Ok (w_state w), w).
Definition put_state (s : option dict) : M unit := fun w => (Ok tt, set_state s w).
Definition get_file : M (option file_content) := fun w => (Ok (w_file w), w).

(** [not self._state]: [None] and the empty dict are falsy. *)
Definition falsy (s : option dict) : bool :=
  match s with None | Some [] => true | Some _ => false end.

(** [self._state[k]]: [TypeError] on [None], [KeyError] on a missing key. *)
Definition getitem (k : string) : M pyval :=
  s <- get_state ;;
  match s with
  | None => raise TypeError
  | Some d => match dict_get k d with
              | Some v => ret v
              | None => raise KeyError
              end
  end.

(** [self._state[k] = v]. *)
Definition setitem (k : string) (v : pyval) : M unit :=
  s <- get_state ;;
  match s with
  | None => raise TypeError
  | Some d => put_state (Some (dict_set k v d))
  end.

(** Python's [+] and [/] of a stored value with a float; [bool] is a
    number in Python, every other stored value raises [TypeError]. *)
Definition py_num (v : pyval) : option Q :=
  match v with
  | VJson (JNum q) => Some q
  | VJson (JBool b) => Some (if b then 1 else 0)%Q
  | _ => None
  end.

Definition py_add (v : pyval) (x : Q) : M Q :=
  match py_num v with Some q => ret (q + x)%Q | None => raise TypeError end.

Definition py_div (v : pyval) (x : Q) : M Q :=
  match py_num v with Some q => ret (q / x)%Q | None => raise TypeError end.

Section Methods.

(** [datetime.now()] reads the wall clock; successive calls read
    successive instants. *)
Variable clock : nat -> datetime.

Definition now : M datetime := fun w => (Ok (clock (w_tick w)), bump_tick w).

(** [isoconverter], the [default=] hook of [json.dump]: a [datetime] is
    written as its [isoformat()] text. *)
Definition encode_val (v : pyval) : json :=
  match v with
  | VJson j => j
  | VDate d => JStr (isoformat_str d)
  | VAware d off => JStr (string_of_list_ascii (isoformat d ++ format_offset off))
  end.

Definition encode_state (s : option dict) : json :=
  match s with
  | None => JNull
  | Some d => JObj (map (fun '(k, v) => (k, encode_val v)) d)
  end.

(** [open(self._filepath, mode="w")]: truncates (the empty text is not
    JSON) or raises [OSError]. *)
Definition open_w : M unit :=
  fun w => if w_can_write w then (Ok tt, set_file (Some Unparseable) w)
           else (Raise OSError, w).

(** [open(self._filepath)]. *)
Definition open_r : M unit :=
  fun w => if w_can_read w then (Ok tt, w) else (Raise OSError, w).

Definition write_file (c : file_content) : M unit :=
  fun w => (Ok tt, set_file (Some c) w).

(** [_save_persisted]: every exception is caught and logged. *)
Definition save_persisted : M unit :=
  try_except
    (s <- get_state ;;
     open_w ;;
     write_file (Parsed (encode_state s)))
    (fun _ => ret tt).

(** [self._state[k] = datetime.fromisoformat(self._state[k])]. *)
Definition convert_timestamp (k : string) : M unit :=
  v <- getitem k ;;
  match v with
  | VJson (JStr t) =>
      match fromisoformat_str t with
      | Some r => setitem k (dt_value r)
      | None => raise ValueError
      end
  | _ => raise TypeError
  end.

(** The [try] block of [_load_persisted].  A top-level JSON value other
    than an object is stored and then subscripted with a string, which
    raises [TypeError]; as the handler overwrites [self._state] anyway,
    the value is not stored here. *)
Definition load_body (c : file_content) : M unit :=
  match c with
  | Unparseable => raise ValueError
  | Parsed (JObj ps) =>
      put_state (Some (dict_of_pairs ps)) ;;
      convert_timestamp "last_reset_at" ;;
      convert_timestamp "last_update_at"
  | Parsed _ => raise TypeError
  end.

(** [_load_persisted]: [open] is outside the [try]. *)
Definition load_persisted : M unit :=
  f <- get_file ;;
  match f with
  | None => ret tt
  | Some c =>
      open_r ;;
      try_except (load_body c) (fun _ => put_state None)
  end.

(** The part of [__init__] that sets the state: [self._state = None]
    followed by [self._load_persisted()]. *)
Definition init_state : M unit :=
  put_state None ;; load_persisted.

(** [_default_state]: the two [datetime.now()] calls are evaluated in
    order. *)
Definition default_state : M unit :=
  a <- now ;;
  b <- now ;;
  put_state (Some [("last_reset_at", VDate a); ("last_update_at", VDate b);
                   ("usage_in_sec", VJson (JNum 0))]).

(** [async_write_ha_state] hands the entity's state to Home Assistant;
    it changes nothing of the sensor. *)
Definition async_write_ha_state : M unit := ret tt.

(** [reset_timer]. *)
Definition reset_timer : M unit :=
  a <- now ;;
  b <- now ;;
  put_state (Some [("last_reset_at", VDate a); ("last_update_at", VDate b);
                   ("usage_in_sec", VJson (JNum 0))]) ;;
  save_persisted ;;
  async_write_ha_state.

(** A Home Assistant [State] object: its state string and [last_changed],
    a time-zone aware instant, here in microseconds since the epoch. *)
Record ha_state := mk_ha_state { state : string; last_changed : Z }.

(** [timedelta.total_seconds()] of a difference of [last_changed]s. *)
Definition total_seconds (diff_us : Z) : Q := (inject_Z diff_us / inject_Z 1000000)%Q.

(** [x.last_changed]: [AttributeError] on [None]. *)
Definition attr_last_changed (x : option ha_state) : M Z :=
  match x with
  | None => raise AttributeError
  | Some s => ret (last_changed s)
  end.

(** [_handle_state_change].  The arguments of the [_LOGGER.debug] call
    are evaluated before the [None] test. *)
Definition handle_state_change (entity : string) (old_state new_state : option ha_state)
  : M unit :=
  _ <- attr_last_changed old_state ;;
  _ <- attr_last_changed new_state ;;
  match old_state, new_state with
  | Some o, Some n =>
      let diff := last_changed n - last_changed o in
      s <- get_state ;;
      (if falsy s || negb (match s with Some d => dict_has "usage_in_sec" d
                                   | None => false end)
       then default_state else ret tt) ;;
      c <- getitem "usage_in_sec" ;;
      r <- py_add c (total_seconds diff) ;;
      setitem "usage_in_sec" (VJson (JNum r)) ;;
      t <- now ;;
      setitem "last_update_at" (VDate t) ;;
      save_persisted ;;
      async_write_ha_state
  | _, _ => ret tt
  end%Z.

(** [extra_state_attributes]: [dict(self._state)] without
    ["usage_in_sec"]. *)
Definition extra_state_attributes : M dict :=
  s <- get_state ;;
  match s with
  | None => raise TypeError
  | Some d => match dict_pop "usage_in_sec" d with
              | Some (_, d') => ret d'
              | None => raise KeyError
              end
  end.

End Methods.

(** [str.lower()] on ASCII text. *)
Definition lower_char (c : ascii) : ascii :=
  let n := nat_of_ascii c in
  if (65 <=? n)%nat && (n <=? 90)%nat then ascii_of_nat (n + 32) else c.

Fixpoint lower (s : string) : string :=
  match s with
  | EmptyString => EmptyString
  | String c s' => String (lower_char c) (lower s')
  end.

(** [native_value], for the configured [native_unit_of_measurement]. *)
Definition native_value (unit : string) : M (option pyval) :=
  s <- get_state ;;
  if falsy s then ret None else
  let u := lower unit in
  c <- getitem "usage_in_sec" ;;
  if String.eqb u "h" then r <- py_div c 3600 ;; ret (Some (VJson (JNum r)))
  else if String.eqb u "m" then r <- py_div c 60 ;; ret (Some (VJson (JNum r)))
  else ret (Some c).

Definition DEFAULT_UNIT_OF_MEASUREMENT : string := "h".

(** [vol.Optional(CONF_UNIT_OF_MEASUREMENT, default=DEFAULT_UNIT_OF_MEASUREMENT)]. *)
Definition configured_unit (cfg : option string) : string :=
  match cfg with
  | Some u => u
  | None => DEFAULT_UNIT_OF_MEASUREMENT
  end.

Definition STATE_ON : string := "on".
Definition STATE_OFF : string := "off".

(** Home Assistant's [process_state_match] for a single state string. *)
Definition match_state (expected : string) (s : option ha_state) : bool :=
  match s with
  | Some x => String.eqb (state x) expected
  | None => false
  end.

(** The filter of [async_track_state_change(entity_id, action, from_state,
    to_state)]: the old state must match [from_state] and the new one
    [to_state]. *)
Definition state_change_filter (from_state to_state : string)
  (old_state new_state : option ha_state) : bool :=
  match_state from_state old_state && match_state to_state new_state.

(** The subscription of [async_added_to_hass]: [_handle_state_change]
    is called with [from_state=STATE_ON] and [to_state=STATE_OFF]. *)
Definition on_state_changed (clock : nat -> datetime) (entity : string)
  (old_state new_state : option ha_state) : M unit :=
  if state_change_filter STATE_ON STATE_OFF old_state new_state
  then handle_state_change clock entity old_state new_state
  else ret tt.

(** [str(x)] of an optional string, as an f-string writes it. *)
Definition py_str_opt (x : option string) : string :=
  match x with Some s => s | None => "None" end.

(** [x if x else y] for an optional string: [None] and [""] are falsy. *)
Definition or_else (x : option string) (y : string) : string :=
  match x with
  | Some s => if String.eqb s "" then y else s
  | None => y
  end.

(** [self._unique_id] set by [__init__]. *)
Definition sensor_unique_id (unique_id : option string) (entity_id : string) : string :=
  or_else unique_id (entity_id ++ "_cumulative_usage").

(** [self._filepath] set by [__init__]: the default is built from the
    [unique_id] argument, not from [self._unique_id]. *)
Definition sensor_filepath (filepath unique_id : option string) : string :=
  or_else filepath
    ("/config/custom_components/cumulative_usage/data/d_" ++ py_str_opt unique_id ++ ".json").

(* ================================================================= *)
(** ** Facts about the dictionary operations and the handler *)

Lemma dict_get_set_eq k v d : dict_get k (dict_set k v d) = Some v.
Proof.
  induction d as [|[k' v'] d IH]; simpl.
  - now rewrite String.eqb_refl.
  - destruct (String.eqb k k') eqn:E; simpl.
    + now rewrite String.eqb_refl.
    + now rewrite E.
Qed.

Lemma dict_get_set_neq k k' v d :
  k <> k' -> dict_get k (dict_set k' v d) = dict_get k d.
Proof.
  intro Hne. induction d as [|[k0 v0] d IH]; simpl.
  - destruct (String.eqb_spec k k'); congruence.
  - destruct (String.eqb_spec k' k0) as [<- | Hk]; simpl.
    + destruct (String.eqb_spec k k'); congruence.
    + now rewrite IH.
Qed.

(** [_save_persisted] never raises; it writes the encoded state when the
    file can be opened for writing. *)
Lemma save_persisted_spec w :
  save_persisted w =
  (Ok tt, if w_can_write w then set_file (Some (Parsed (encode_state (w_state w)))) w
          else w).
Proof. destruct w as [st f cr [|] k]; reflexivity. Qed.

(** [reset_timer] never raises; it stores a zero record stamped with two
    successive clock readings and writes it when it can. *)
Lemma reset_timer_spec clock w :
  reset_timer clock w =
  (Ok tt,
   let r := [("last_reset_at", VDate (clock (w_tick w)));
             ("last_update_at", VDate (clock (S (w_tick w))));
             ("usage_in_sec", VJson (JNum 0))] in
   let w1 := mk_world (Some r) (w_file w) (w_can_read w) (w_can_write w)
                      (S (S (w_tick w))) in
   if w_can_write w then set_file (Some (Parsed (encode_state (Some r)))) w1 else w1).
Proof. destruct w as [st f cr [|] k]; reflexivity. Qed.

(** The handler on two present notifications and a state holding
    ["usage_in_sec"]. *)
Lemma handle_some_spec clock e o n w d v :
  w_state w = Some d -> dict_get "usage_in_sec" d = Some v ->
  handle_state_change clock e (Some o) (Some n) w =
  match py_num v with
  | Some q =>
      let d' := dict_set "last_update_at" (VDate (clock (w_tick w)))
                  (dict_set "usage_in_sec"
                     (VJson (JNum (q + total_seconds (last_changed n - last_changed o))%Q)) d) in
      let w1 := mk_world (Some d') (w_file w) (w_can_read w) (w_can_write w) (S (w_tick w)) in
      (Ok tt, if w_can_write w then set_file (Some (Parsed (encode_state (Some d')))) w1 else w1)
  | None => (Raise TypeError, w)
  end.
Proof.
  destruct w as [st f cr cw k]; cbn [w_state]; intros -> Hd.
  unfold handle_state_change, bind, attr_last_changed, ret, get_state.
  cbv beta iota. cbn [w_state w_file w_can_read w_can_write w_tick].
  replace (falsy (Some d)) with false by (destruct d; [discriminate | reflexivity]).
  replace (dict_has "usage_in_sec" d) with true
    by (unfold dict_has; rewrite Hd; reflexivity).
  unfold getitem, setitem, py_add, now, save_persisted, try_except, open_w,
    write_file, async_write_ha_state, put_state, get_state, bind, ret, raise.
  simpl. rewrite Hd. destruct (py_num v); simpl; [destruct cw|]; reflexivity.
Qed.

(** A missing notification stops the handler in its debug log line. *)
Lemma handle_old_none clock e new_state w :
  handle_state_change clock e None new_state w = (Raise AttributeError, w).
Proof. reflexivity. Qed.

Lemma handle_new_none clock e o w :
  handle_state_change clock e (Some o) None w = (Raise AttributeError, w).
Proof. reflexivity. Qed.

Lemma total_seconds_nonneg x : (0 <= x)%Z -> (0 <= total_seconds x)%Q.
Proof.
  intro Hx. unfold total_seconds, Qdiv.
  apply Qmult_le_0_compat.
  - now apply (Qle_bool_imp_le 0 (inject_Z x)); unfold Qle_bool; simpl; lia.
  - apply Qinv_le_0_compat. discriminate.
Qed.

(** A persisted usage record: the three fields [reset_timer] writes. *)
Record usage_record := mk_usage_record {
  last_reset_at : datetime;
  last_update_at : datetime;
  usage_in_sec : Q }.

Definition to_dict (r : usage_record) : dict :=
  [("last_reset_at", VDate (last_reset_at r));
   ("last_update_at", VDate (last_update_at r));
   ("usage_in_sec", VJson (JNum (usage_in_sec r)))].

Definition valid_record (r : usage_record) : bool :=
  check_fields (last_reset_at r) && check_fields (last_update_at r).

(** Concrete data for the witnesses and counterexamples: a clock that
    starts at 2024-01-01T00:00:00 and advances one second per read. *)
Definition sample_clock (n : nat) : datetime :=
  mk_datetime 2024 1 1 0 0 (Z.of_nat (n mod 60)) 0.

Definition sample_record (u : Q) : usage_record :=
  mk_usage_record (sample_clock 0) (sample_clock 1) u.

Definition sample_world (u : Q) : world :=
  mk_world (Some (to_dict (sample_record u))) None true true 2.

Definition turned_on_at (t : Z) : ha_state := mk_ha_state STATE_ON t.
Definition turned_off_at (t : Z) : ha_state := mk_ha_state STATE_OFF t.

(** The timestamp [_load_persisted] reads from key [k] of the decoded
    object, when it is a string [datetime.fromisoformat] accepts. *)
Definition parse_ts (d : dict) (k : string) : option pyval :=
  match dict_get k d with
  | Some (VJson (JStr t)) => option_map dt_value (fromisoformat_str t)
  | _ => None
  end.

(** The state that [__init__] ends with, read off [_load_persisted] path
    by path (for a file that can be opened). *)
Definition loaded_state (f : option file_content) : option dict :=
  match f with
  | Some (Parsed (JObj ps)) =>
      let d := dict_of_pairs ps in
      match parse_ts d "last_reset_at", parse_ts d "last_update_at" with
      | Some a, Some b =>
          Some (dict_set "last_update_at" b (dict_set "last_reset_at" a d))
      | _, _ => None
      end
  | _ => None
  end.

(** A [datetime] object the constructor accepts: valid fields, and for an
    aware value an offset strictly within a day. *)
Definition valid_ts (v : pyval) : bool :=
  match v with
  | VDate d => check_fields d
  | VAware d off => check_fields d && offset_ok (Some off)
  | VJson _ => false
  end.

Section LoadFacts.

Local Arguments fromisoformat_str : simpl never.
Local Arguments isoformat_str : simpl never.

Lemma init_state_spec w :
  w_can_read w = true ->
  init_state w = (Ok tt, set_state (loaded_state (w_file w)) w).
Proof.
  destruct w as [st f cr cw k]. cbn [w_can_read w_file]. intros ->.
  destruct f as [[|j]|]; [reflexivity | | reflexivity].
  destruct j as [| | | | |ps]; try reflexivity.
  unfold init_state, load_persisted, load_body, convert_timestamp, getitem, setitem,
    open_r, get_file, put_state, get_state, bind, ret, raise, try_except,
    loaded_state, parse_ts.
  cbn [w_state w_file w_can_read set_state].
  destruct (dict_get "last_reset_at" (dict_of_pairs ps)) as [[[| | | t | |]| |]|];
    try reflexivity.
  destruct (fromisoformat_str t) as [a|]; [|reflexivity].
  cbn [w_state set_state].
  rewrite dict_get_set_neq by discriminate.
  destruct (dict_get "last_update_at" (dict_of_pairs ps)) as [[[| | | t' | |]| |]|];
    try reflexivity.
  destruct (fromisoformat_str t') as [b|]; reflexivity.
Qed.

(** Saving a valid record and loading it back in a fresh sensor. *)
Lemma save_then_init_spec r w :
  valid_record r = true ->
  w_state w = Some (to_dict r) -> w_can_write w = true -> w_can_read w = true ->
  init_state (snd (save_persisted w)) =
  (Ok tt, set_state (Some (to_dict r))
            (set_file (Some (Parsed (encode_state (Some (to_dict r))))) w)).
Proof.
  destruct r as [a b u]. unfold valid_record. cbn [last_reset_at last_update_at].
  intros Hv Hw Hcw Hcr. apply andb_true_iff in Hv as [Ha Hb].
  rewrite save_persisted_spec, Hcw, Hw. cbn [snd].
  destruct w as [st f cr cw k]. cbn [w_can_read w_can_write] in *. subst.
  unfold init_state, load_persisted, load_body, convert_timestamp, getitem, setitem,
    open_r, get_file, put_state, get_state, bind, ret, raise, try_except.
  simpl.
  rewrite (fromisoformat_str_isoformat_str a Ha). simpl.
  rewrite (fromisoformat_str_isoformat_str b Hb). simpl.
  reflexivity.
Qed.

End LoadFacts.

(** The handler on a state that is [None] or lacks ["usage_in_sec"]: a
    fresh zero record from [_default_state], then the delta. *)
Lemma handle_reinit_spec clock e o n w :
  match w_state w with Some d => dict_has "usage_in_sec" d = false | None => True end ->
  fst (handle_state_change clock e (Some o) (Some n) w) = Ok tt /\
  w_state (snd (handle_state_change clock e (Some o) (Some n) w)) =
  Some (to_dict (mk_usage_record (clock (w_tick w)) (clock (S (S (w_tick w))))
                   (0 + total_seconds (last_changed n - last_changed o)))).
Proof.
  destruct w as [st f cr cw k]. cbn [w_state w_tick].
  intro H.
  unfold handle_state_change, bind, attr_last_changed, ret, get_state.
  cbv beta iota. cbn [w_state w_file w_can_read w_can_write w_tick].
  replace (falsy st || negb match st with
                             | Some d => dict_has "usage_in_sec" d
                             | None => false end) with true
    by (destruct st; [rewrite H, orb_true_r | ]; reflexivity).
  unfold default_state, getitem, setitem, py_add, now, save_persisted, try_except,
    open_w, write_file, async_write_ha_state, put_state, get_state, bind, ret, raise.
  destruct cw; split; reflexivity.
Qed.

(* ================================================================= *)
(** ** The claims *)

(** C1: on an initialized state whose ["usage_in_sec"] is a number [u],
    [_handle_state_change] with two notifications returns normally, adds
    exactly [t1 - t0] seconds to ["usage_in_sec"] (whatever the sign of
    the difference) and sets ["last_update_at"] to the clock reading of
    the call, not to [t1]. *)
Theorem handle_state_change_adds_delta clock e o n w d u :
  w_state w = Some d ->
  dict_get "usage_in_sec" d = Some (VJson (JNum u)) ->
  exists w', handle_state_change clock e (Some o) (Some n) w = (Ok tt, w') /\
    exists d', w_state w' = Some d' /\
      dict_get "usage_in_sec" d' =
        Some (VJson (JNum (u + inject_Z (last_changed n - last_changed o)
                                / inject_Z 1000000)%Q)) /\
      dict_get "last_update_at" d' = Some (VDate (clock (w_tick w))).
Proof.
  intros Hw Hd. rewrite (handle_some_spec clock e o n w d _ Hw Hd). cbn [py_num].
  eexists. split; [reflexivity|].
  eexists. split; [destruct (w_can_write w); reflexivity|]. split.
  - rewrite dict_get_set_neq by discriminate. apply dict_get_set_eq.
  - apply dict_get_set_eq.
Qed.

Lemma handle_state_change_adds_delta_witness :
  w_state (sample_world 5) = Some (to_dict (sample_record 5)) /\
  dict_get "usage_in_sec" (to_dict (sample_record 5)) = Some (VJson (JNum 5)) /\
  exists w', handle_state_change sample_clock "binary_sensor.pump"
               (Some (turned_on_at 3000000)) (Some (turned_off_at 0)) (sample_world 5)
             = (Ok tt, w') /\
    exists d', w_state w' = Some d' /\
      dict_get "usage_in_sec" d' =
        Some (VJson (JNum (5 + inject_Z (0 - 3000000) / inject_Z 1000000)%Q)) /\
      dict_get "last_update_at" d' = Some (VDate (sample_clock 2)).
Proof.
  split; [reflexivity|]. split; [reflexivity|].
  apply (handle_state_change_adds_delta sample_clock "binary_sensor.pump"
           (turned_on_at 3000000) (turned_off_at 0) (sample_world 5)
           (to_dict (sample_record 5)) 5); reflexivity.
Defined.

(** C10: on a state holding ["usage_in_sec"], [_handle_state_change]
    leaves every key other than ["usage_in_sec"] and ["last_update_at"]
    (["last_reset_at"] in particular) as it was, whatever the
    notifications and whether or not the call raises. *)
Theorem handle_state_change_frame clock e old_state new_state w d k :
  w_state w = Some d ->
  dict_has "usage_in_sec" d = true ->
  k <> "usage_in_sec" -> k <> "last_update_at" ->
  exists d', w_state (snd (handle_state_change clock e old_state new_state w)) = Some d' /\
             dict_get k d' = dict_get k d.
Proof.
  intros Hw Hhas Hk1 Hk2.
  destruct old_state as [o|]; [destruct new_state as [n|]|].
  - unfold dict_has in Hhas.
    destruct (dict_get "usage_in_sec" d) as [v|] eqn:Hv; [|discriminate].
    rewrite (handle_some_spec clock e o n w d v Hw Hv).
    destruct (py_num v) as [q|]; cbn [snd].
    + eexists. split; [destruct (w_can_write w); reflexivity|].
      rewrite !dict_get_set_neq by assumption. reflexivity.
    + exists d. auto.
  - rewrite handle_new_none. exists d. auto.
  - rewrite handle_old_none. exists d. auto.
Qed.

Lemma handle_state_change_frame_witness :
  w_state (sample_world 5) = Some (to_dict (sample_record 5)) /\
  dict_has "usage_in_sec" (to_dict (sample_record 5)) = true /\
  "last_reset_at" <> "usage_in_sec" /\ "last_reset_at" <> "last_update_at" /\
  exists d', w_state (snd (handle_state_change sample_clock "binary_sensor.pump"
                             (Some (turned_on_at 0)) (Some (turned_off_at 7000000))
                             (sample_world 5))) = Some d' /\
             dict_get "last_reset_at" d' =
             dict_get "last_reset_at" (to_dict (sample_record 5)).
Proof.
  split; [reflexivity|]. split; [reflexivity|].
  split; [discriminate|]. split; [discriminate|].
  apply (handle_state_change_frame sample_clock "binary_sensor.pump"
           (Some (turned_on_at 0)) (Some (turned_off_at 7000000))
           (sample_world 5) (to_dict (sample_record 5)) "last_reset_at");
    [reflexivity | reflexivity | discriminate | discriminate].
Defined.

(** C2, as stated, fails: from the zero record [reset_timer] writes, a
    pair of notifications whose [last_changed] go backwards by one second
    leaves ["usage_in_sec"] at [-1]. *)
Lemma usage_goes_negative_on_backward_delta :
  match w_state (snd (handle_state_change sample_clock "binary_sensor.pump"
                         (Some (turned_on_at 1000000)) (Some (turned_off_at 0))
                         (snd (reset_timer sample_clock (mk_world None None true true 0))))) with
  | Some d => match dict_get "usage_in_sec" d with
              | Some (VJson (JNum q)) => (q < 0)%Q
              | _ => False
              end
  | None => False
  end.
Proof. vm_compute. reflexivity. Qed.

(** C2 (amended): [reset_timer] sets ["usage_in_sec"] to [0], and
    [_handle_state_change] keeps a non-negative ["usage_in_sec"]
    non-negative when the new notification is not older than the old
    one; nothing clamps a backward difference. *)
Theorem usage_nonneg_on_forward_deltas clock e o n w d u :
  w_state w = Some d ->
  dict_get "usage_in_sec" d = Some (VJson (JNum u)) ->
  (0 <= u)%Q ->
  (last_changed o <= last_changed n)%Z ->
  (exists d' u', w_state (snd (handle_state_change clock e (Some o) (Some n) w)) = Some d' /\
                 dict_get "usage_in_sec" d' = Some (VJson (JNum u')) /\ (0 <= u')%Q) /\
  (exists d', w_state (snd (reset_timer clock w)) = Some d' /\
              dict_get "usage_in_sec" d' = Some (VJson (JNum 0))).
Proof.
  intros Hw Hd Hu Hle. split.
  - rewrite (handle_some_spec clock e o n w d _ Hw Hd). cbn [py_num snd].
    eexists. eexists. split; [destruct (w_can_write w); reflexivity|].
    rewrite dict_get_set_neq by discriminate. rewrite dict_get_set_eq.
    split; [reflexivity|].
    apply (Qle_trans _ (0 + 0)); [apply Qle_refl|].
    apply Qplus_le_compat; [exact Hu|]. apply total_seconds_nonneg. lia.
  - rewrite reset_timer_spec. cbn [snd].
    eexists. split; [destruct (w_can_write w); reflexivity | reflexivity].
Qed.

Lemma usage_nonneg_on_forward_deltas_witness :
  w_state (sample_world 5) = Some (to_dict (sample_record 5)) /\
  dict_get "usage_in_sec" (to_dict (sample_record 5)) = Some (VJson (JNum 5)) /\
  (0 <= 5)%Q /\ (last_changed (turned_on_at 0) <= last_changed (turned_off_at 60000000))%Z /\
  (exists d' u', w_state (snd (handle_state_change sample_clock "binary_sensor.pump"
                                 (Some (turned_on_at 0)) (Some (turned_off_at 60000000))
                                 (sample_world 5))) = Some d' /\
                 dict_get "usage_in_sec" d' = Some (VJson (JNum u')) /\ (0 <= u')%Q) /\
  (exists d', w_state (snd (reset_timer sample_clock (sample_world 5))) = Some d' /\
              dict_get "usage_in_sec" d' = Some (VJson (JNum 0))).
Proof.
  split; [reflexivity|]. split; [reflexivity|].
  split; [discriminate|]. split; [discriminate|].
  apply (usage_nonneg_on_forward_deltas sample_clock "binary_sensor.pump"
           (turned_on_at 0) (turned_off_at 60000000) (sample_world 5)
           (to_dict (sample_record 5)) 5);
    [reflexivity | reflexivity | discriminate | discriminate].
Defined.

(** C3, as stated, fails: an inactive-to-active notification ("off" then
    "on") is not forwarded to [_handle_state_change]; the handler would
    have changed the state. *)
Lemma off_to_on_not_forwarded :
  on_state_changed sample_clock "binary_sensor.pump"
    (Some (turned_off_at 0)) (Some (turned_on_at 5000000)) (sample_world 5)
  <> handle_state_change sample_clock "binary_sensor.pump"
       (Some (turned_off_at 0)) (Some (turned_on_at 5000000)) (sample_world 5).
Proof.
  intro H. apply (f_equal (fun p => w_tick (snd p))) in H.
  vm_compute in H. discriminate H.
Qed.

(** C3 (amended): the subscription forwards a notification to
    [_handle_state_change] exactly when the old state is ["on"] and the
    new state is ["off"] (active to inactive); every other notification,
    including inactive to active and those with a missing state, is
    dropped without effect. *)
Theorem on_state_changed_forwards_on_to_off clock e old_state new_state w :
  (match_state STATE_ON old_state && match_state STATE_OFF new_state = true ->
   on_state_changed clock e old_state new_state w =
   handle_state_change clock e old_state new_state w) /\
  (match_state STATE_ON old_state && match_state STATE_OFF new_state = false ->
   on_state_changed clock e old_state new_state w = (Ok tt, w)) /\
  (match_state STATE_ON old_state = true <->
   exists o, old_state = Some o /\ state o = "on") /\
  (match_state STATE_OFF new_state = true <->
   exists n, new_state = Some n /\ state n = "off").
Proof.
  unfold on_state_changed, state_change_filter.
  split; [intros ->; reflexivity|]. split; [intros ->; reflexivity|].
  split.
  - destruct old_state as [o|]; simpl; split.
    + intro H. apply String.eqb_eq in H. eauto.
    + intros [o' [[= <-] Ho]]. now apply String.eqb_eq.
    + discriminate.
    + intros [o' [H _]]. discriminate.
  - destruct new_state as [n|]; simpl; split.
    + intro H. apply String.eqb_eq in H. eauto.
    + intros [n' [[= <-] Hn]]. now apply String.eqb_eq.
    + discriminate.
    + intros [n' [H _]]. discriminate.
Qed.

(** C5: a notification whose old or new state is missing is dropped by
    the subscription's filter without effect: nothing is raised and the
    sensor's state, file and clock are unchanged. *)
Theorem missing_notification_dropped clock e old_state new_state w :
  on_state_changed clock e None new_state w = (Ok tt, w) /\
  on_state_changed clock e old_state None w = (Ok tt, w).
Proof.
  unfold on_state_changed, state_change_filter, match_state.
  split; [reflexivity|]. rewrite andb_false_r. reflexivity.
Qed.

(** Called directly, not through the subscription, with a missing old
    state the handler raises [AttributeError]: the debug log evaluates
    [old_state.last_changed] before the [None] test. *)
Lemma missing_old_notification_raises :
  handle_state_change sample_clock "binary_sensor.pump"
    None (Some (turned_off_at 0)) (sample_world 5) =
  (Raise AttributeError, sample_world 5).
Proof. reflexivity. Qed.

(** A file whose timestamps carry UTC offsets, as an aware [datetime]'s
    [isoformat()] writes them. *)
Definition offset_blob : file_content :=
  Parsed (JObj [("last_reset_at", JStr "2024-01-01T00:00:00+00:00");
                ("last_update_at", JStr "2024-01-01T08:30:00.5+02:00");
                ("usage_in_sec", JNum 12)]).

(** A file holding the two timestamps but no ["usage_in_sec"]. *)
Definition partial_blob : file_content :=
  Parsed (JObj [("last_reset_at", JStr "2024-01-01T00:00:00");
                ("last_update_at", JStr "2024-01-01T00:00:01")]).

(** C4, as stated, fails: a file without ["usage_in_sec"] does not load
    as absent but as a partial record holding the two timestamps. *)
Lemma partial_blob_loads_partial_record :
  w_state (snd (init_state (mk_world None (Some partial_blob) true true 0))) =
  Some [("last_reset_at", VDate (sample_clock 0));
        ("last_update_at", VDate (sample_clock 1))].
Proof. vm_compute. reflexivity. Qed.

(** Offsets are accepted: the timestamps load as aware [datetime]s, the
    first one in UTC. *)
Lemma offset_blob_loads_aware :
  w_state (snd (init_state (mk_world None (Some offset_blob) true true 0))) =
  Some [("last_reset_at", VAware (mk_datetime 2024 1 1 0 0 0 0) 0);
        ("last_update_at", VAware (mk_datetime 2024 1 1 8 30 0 500000) 7200000000);
        ("usage_in_sec", VJson (JNum 12))].
Proof. vm_compute. reflexivity. Qed.

(** C4 (amended): loading never raises on a file that can be opened, and
    ends with the state [loaded_state]: absent when the file does not
    exist, is not JSON, is not a JSON object, or lacks a valid
    ["last_reset_at"] or ["last_update_at"] timestamp; ["usage_in_sec"]
    is not checked.  When the loaded state is absent or lacks
    ["usage_in_sec"], the next [_handle_state_change] starts from a
    fresh zero record and adds its delta to it. *)
Theorem load_checks_timestamps_only clock e o n w :
  w_can_read w = true ->
  init_state w = (Ok tt, set_state (loaded_state (w_file w)) w) /\
  loaded_state None = None /\
  loaded_state (Some Unparseable) = None /\
  (forall j, (forall ps, j <> JObj ps) -> loaded_state (Some (Parsed j)) = None) /\
  (forall ps, (parse_ts (dict_of_pairs ps) "last_reset_at" = None \/
               parse_ts (dict_of_pairs ps) "last_update_at" = None) ->
              loaded_state (Some (Parsed (JObj ps))) = None) /\
  (match loaded_state (w_file w) with
   | Some d => dict_has "usage_in_sec" d = false
   | None => True
   end ->
   fst (handle_state_change clock e (Some o) (Some n) (snd (init_state w))) = Ok tt /\
   w_state (snd (handle_state_change clock e (Some o) (Some n) (snd (init_state w)))) =
   Some (to_dict (mk_usage_record (clock (w_tick w)) (clock (S (S (w_tick w))))
                    (0 + total_seconds (last_changed n - last_changed o))))).
Proof.
  intro Hcr. pose proof (init_state_spec w Hcr) as Hinit.
  split; [exact Hinit|]. split; [reflexivity|]. split; [reflexivity|].
  split.
  { intros j Hj. destruct j as [| | | | |ps]; try reflexivity.
    exfalso. exact (Hj ps eq_refl). }
  split.
  { intros ps [H | H]; unfold loaded_state; cbv zeta; rewrite H;
      [reflexivity | destruct (parse_ts _ "last_reset_at"); reflexivity]. }
  intro Hl. rewrite Hinit. cbn [snd].
  apply (handle_reinit_spec clock e o n (set_state (loaded_state (w_file w)) w)).
  exact Hl.
Qed.

Lemma load_checks_timestamps_only_witness :
  w_can_read (mk_world None (Some partial_blob) true true 0) = true /\
  init_state (mk_world None (Some partial_blob) true true 0) =
    (Ok tt, set_state (loaded_state (w_file (mk_world None (Some partial_blob) true true 0)))
              (mk_world None (Some partial_blob) true true 0)) /\
  loaded_state None = None /\
  loaded_state (Some Unparseable) = None /\
  (forall j, (forall ps, j <> JObj ps) -> loaded_state (Some (Parsed j)) = None) /\
  (forall ps, (parse_ts (dict_of_pairs ps) "last_reset_at" = None \/
               parse_ts (dict_of_pairs ps) "last_update_at" = None) ->
              loaded_state (Some (Parsed (JObj ps))) = None) /\
  (match loaded_state (w_file (mk_world None (Some partial_blob) true true 0)) with
   | Some d => dict_has "usage_in_sec" d = false
   | None => True
   end ->
   fst (handle_state_change sample_clock "binary_sensor.pump"
          (Some (turned_on_at 0)) (Some (turned_off_at 300000000))
          (snd (init_state (mk_world None (Some partial_blob) true true 0)))) = Ok tt /\
   w_state (snd (handle_state_change sample_clock "binary_sensor.pump"
          (Some (turned_on_at 0)) (Some (turned_off_at 300000000))
          (snd (init_state (mk_world None (Some partial_blob) true true 0))))) =
   Some (to_dict (mk_usage_record (sample_clock 0) (sample_clock 2)
                    (0 + total_seconds (last_changed (turned_off_at 300000000)
                                        - last_changed (turned_on_at 0)))))).
Proof.
  split; [reflexivity|].
  apply (load_checks_timestamps_only sample_clock "binary_sensor.pump"
           (turned_on_at 0) (turned_off_at 300000000)
           (mk_world None (Some partial_blob) true true 0)).
  reflexivity.
Defined.

(** C6: a valid record saved by [_save_persisted] (to a writable file)
    and loaded by a fresh sensor (from a readable file) comes back
    exactly: the ISO-8601 text keeps every field of a naive [datetime]
    down to the microsecond. *)
Theorem save_load_roundtrip r w :
  valid_record r = true ->
  w_state w = Some (to_dict r) ->
  w_can_write w = true -> w_can_read w = true ->
  fst (init_state (snd (save_persisted w))) = Ok tt /\
  w_state (snd (init_state (snd (save_persisted w)))) = Some (to_dict r).
Proof.
  intros Hv Hw Hcw Hcr.
  rewrite (save_then_init_spec r w Hv Hw Hcw Hcr). split; reflexivity.
Qed.

Definition roundtrip_record : usage_record :=
  mk_usage_record (mk_datetime 2024 2 29 23 59 58 123456)
                  (mk_datetime 2024 3 1 0 0 7 0) (9001 # 4).

Definition roundtrip_world : world :=
  mk_world (Some (to_dict roundtrip_record)) None true true 0.

Lemma save_load_roundtrip_witness :
  valid_record roundtrip_record = true /\
  w_state roundtrip_world = Some (to_dict roundtrip_record) /\
  w_can_write roundtrip_world = true /\ w_can_read roundtrip_world = true /\
  fst (init_state (snd (save_persisted roundtrip_world))) = Ok tt /\
  w_state (snd (init_state (snd (save_persisted roundtrip_world)))) =
    Some (to_dict roundtrip_record).
Proof.
  split; [vm_compute; reflexivity|]. split; [reflexivity|].
  split; [reflexivity|]. split; [reflexivity|].
  apply (save_load_roundtrip roundtrip_record roundtrip_world);
    [vm_compute; reflexivity | reflexivity | reflexivity | reflexivity].
Defined.

(** C7: [reset_timer] returns normally from every state; it stores
    ["usage_in_sec"] [0] with ["last_reset_at"] and ["last_update_at"]
    the two clock readings of the call, and writes the record when the
    file is writable.  A second call again stores [0] with a new
    ["last_reset_at"] reading. *)
Theorem reset_timer_zeroes clock w :
  fst (reset_timer clock w) = Ok tt /\
  w_state (snd (reset_timer clock w)) =
    Some (to_dict (mk_usage_record (clock (w_tick w)) (clock (S (w_tick w))) 0)) /\
  w_file (snd (reset_timer clock w)) =
    (if w_can_write w
     then Some (Parsed (encode_state (w_state (snd (reset_timer clock w)))))
     else w_file w) /\
  fst (reset_timer clock (snd (reset_timer clock w))) = Ok tt /\
  w_state (snd (reset_timer clock (snd (reset_timer clock w)))) =
    Some (to_dict (mk_usage_record (clock (S (S (w_tick w))))
                                   (clock (S (S (S (w_tick w))))) 0)).
Proof.
  rewrite !reset_timer_spec.
  destruct (w_can_write w) eqn:Hcw; cbn; rewrite ?Hcw; cbn;
    repeat split; reflexivity.
Qed.

(** C8, as stated, fails: with no unit configured the schema's default
    ["h"] applies, so 3600 stored seconds read as 1, not 3600. *)
Lemma unspecified_unit_reads_hours :
  match fst (native_value (configured_unit None) (sample_world 3600)) with
  | Ok (Some (VJson (JNum q))) => (q == 1)%Q /\ ~ (q == 3600)%Q
  | _ => False
  end.
Proof. vm_compute. split; [reflexivity | discriminate]. Qed.

(** C8 (amended): on an initialized state holding [s] seconds,
    [native_value] returns normally with [s/3600] when the unit is ["h"]
    in any letter case, [s/60] for ["m"] in any case, and [s] for every
    other unit; an unspecified unit is ["h"]. *)
Theorem native_value_converts unit w d sec :
  w_state w = Some d ->
  dict_get "usage_in_sec" d = Some (VJson (JNum sec)) ->
  native_value unit w =
  (Ok (Some (VJson (JNum (if String.eqb (lower unit) "h" then sec / 3600
                          else if String.eqb (lower unit) "m" then sec / 60
                          else sec)))), w) /\
  configured_unit None = "h" /\
  lower "H" = "h" /\ lower "M" = "m".
Proof.
  intros Hw Hd. split; [|repeat split].
  destruct w as [st f cr cw k]. cbn [w_state] in Hw. subst st.
  unfold native_value, getitem, py_div, bind, get_state, ret.
  cbv beta iota zeta. cbn [w_state].
  replace (falsy (Some d)) with false by (destruct d; [discriminate | reflexivity]).
  cbv beta iota. cbn [w_state]. rewrite Hd. cbn [py_num].
  destruct (String.eqb (lower unit) "h"); [reflexivity|].
  destruct (String.eqb (lower unit) "m"); reflexivity.
Qed.

Lemma native_value_converts_witness :
  w_state (sample_world 90) = Some (to_dict (sample_record 90)) /\
  dict_get "usage_in_sec" (to_dict (sample_record 90)) = Some (VJson (JNum 90)) /\
  native_value "m" (sample_world 90) =
  (Ok (Some (VJson (JNum (if String.eqb (lower "m") "h" then 90 / 3600
                          else if String.eqb (lower "m") "m" then 90 / 60
                          else 90)))), sample_world 90) /\
  configured_unit None = "h" /\
  lower "H" = "h" /\ lower "M" = "m".
Proof.
  split; [reflexivity|]. split; [reflexivity|].
  apply (native_value_converts "m" (sample_world 90) (to_dict (sample_record 90)) 90);
    reflexivity.
Defined.

(** C9: a fault does propagate: a sensor created without a persisted
    file has no state, and reading [extra_state_attributes] then raises
    [TypeError] from [dict(None)]. *)
Theorem attributes_raise_without_state :
  fst (bind init_state (fun _ => extra_state_attributes)
            (mk_world None None true true 0)) = Raise TypeError.
Proof. reflexivity. Qed.

(* ================================================================= *)
(** ** Further properties of the sensor *)

Lemma string_app_length (a b : string) :
  String.length (a ++ b) = (String.length a + String.length b)%nat.
Proof. induction a as [|c a IH]; simpl; [reflexivity | now rewrite IH]. Qed.

Lemma string_app_cancel_l (p a b : string) : (p ++ a = p ++ b)%string -> a = b.
Proof. induction p as [|c p IH]; simpl; [auto | intro H; injection H; auto]. Qed.

Lemma string_app_cancel_r (a b t : string) : (a ++ t = b ++ t)%string -> a = b.
Proof.
  revert b. induction a as [|c a IH]; intros [|c' b] H; simpl in *.
  - reflexivity.
  - exfalso. apply (f_equal String.length) in H. simpl in H.
    rewrite string_app_length in H. lia.
  - exfalso. apply (f_equal String.length) in H. simpl in H.
    rewrite string_app_length in H. lia.
  - injection H as -> H. f_equal. now apply IH.
Qed.

Lemma dict_pop_missing k d : dict_get k d = None -> dict_pop k d = None.
Proof.
  induction d as [|[k' v'] d IH]; simpl; [reflexivity|].
  destruct (String.eqb k k'); [discriminate|]. intro H. now rewrite IH.
Qed.

Lemma dict_pop_present k d v :
  dict_get k d = Some v ->
  exists d', dict_pop k d = Some (v, d') /\
             forall k', k' <> k -> dict_get k' d' = dict_get k' d.
Proof.
  induction d as [|[k0 v0] d IH]; simpl; [discriminate|].
  destruct (String.eqb_spec k k0) as [<- | Hne].
  - intros [= ->]. exists d. split; [reflexivity|].
    intros k' Hk'. destruct (String.eqb_spec k' k); [congruence | reflexivity].
  - intro H. destruct (IH H) as [d' [Hp Hg]]. rewrite Hp.
    exists ((k0, v0) :: d'). split; [reflexivity|].
    intros k' Hk'. simpl. rewrite Hg by exact Hk'. reflexivity.
Qed.

Lemma fromisoformat_checked t r : fromisoformat_str t = Some r -> valid_ts (dt_value r) = true.
Proof.
  destruct r as [d [off|]]; intro H; apply fromisoformat_valid in H; simpl.
  - exact H.
  - apply andb_true_iff in H as [H _]. exact H.
Qed.

Section EncodedFacts.

Local Arguments fromisoformat_str : simpl never.
Local Arguments isoformat_str : simpl never.

(** A file holding the encoding of a valid record loads as that record. *)
Lemma init_state_encoded r w :
  valid_record r = true -> w_can_read w = true ->
  w_file w = Some (Parsed (encode_state (Some (to_dict r)))) ->
  init_state w = (Ok tt, set_state (Some (to_dict r)) w).
Proof.
  intros Hv Hcr Hf. rewrite (init_state_spec w Hcr), Hf.
  destruct r as [a b u]. unfold valid_record in Hv. cbn [last_reset_at last_update_at] in Hv.
  apply andb_true_iff in Hv as [Ha Hb].
  unfold loaded_state, parse_ts. simpl.
  rewrite (fromisoformat_str_isoformat_str a Ha), (fromisoformat_str_isoformat_str b Hb).
  reflexivity.
Qed.

End EncodedFacts.

(** X1: a sensor configured without [unique_id] gets the unique id
    [<entity_id>_cumulative_usage], so two such sensors on different
    entities have different unique ids; without [file_path] both still
    persist to the one file [.../d_None.json], since the default path is
    built from the [unique_id] argument. *)
Theorem default_path_shared_without_unique_id e1 e2 :
  e1 <> e2 ->
  sensor_unique_id None e1 <> sensor_unique_id None e2 /\
  sensor_unique_id None e1 = (e1 ++ "_cumulative_usage")%string /\
  sensor_filepath None None = "/config/custom_components/cumulative_usage/data/d_None.json".
Proof.
  intro Hne. split; [|split; reflexivity].
  unfold sensor_unique_id, or_else. intro H. apply Hne.
  exact (string_app_cancel_r _ _ _ H).
Qed.

Lemma default_path_shared_without_unique_id_witness :
  "switch.pump" <> "switch.heater" /\
  sensor_unique_id None "switch.pump" <> sensor_unique_id None "switch.heater" /\
  sensor_unique_id None "switch.pump" = ("switch.pump" ++ "_cumulative_usage")%string /\
  sensor_filepath None None = "/config/custom_components/cumulative_usage/data/d_None.json".
Proof.
  split; [discriminate|].
  apply (default_path_shared_without_unique_id "switch.pump" "switch.heater").
  discriminate.
Defined.

(** X2: with no [file_path] configured, sensors with distinct non-empty
    [unique_id]s persist to distinct files [.../d_<unique_id>.json]. *)
Theorem default_paths_distinct_for_unique_ids u1 u2 :
  u1 <> "" -> u2 <> "" -> u1 <> u2 ->
  sensor_filepath None (Some u1) <> sensor_filepath None (Some u2) /\
  sensor_filepath None (Some u1) =
    ("/config/custom_components/cumulative_usage/data/d_" ++ u1 ++ ".json")%string.
Proof.
  intros H1 H2 Hne. split; [|reflexivity].
  unfold sensor_filepath, or_else, py_str_opt. intro H.
  apply string_app_cancel_l in H. apply string_app_cancel_r in H. exact (Hne H).
Qed.

Lemma default_paths_distinct_for_unique_ids_witness :
  "pump" <> "" /\ "heater" <> "" /\ "pump" <> "heater" /\
  sensor_filepath None (Some "pump") <> sensor_filepath None (Some "heater") /\
  sensor_filepath None (Some "pump") =
    ("/config/custom_components/cumulative_usage/data/d_" ++ "pump" ++ ".json")%string.
Proof.
  split; [discriminate|]. split; [discriminate|]. split; [discriminate|].
  apply (default_paths_distinct_for_unique_ids "pump" "heater"); discriminate.
Defined.

Lemma parse_ts_checked d k a : parse_ts d k = Some a -> valid_ts a = true.
Proof.
  unfold parse_ts. destruct (dict_get k d) as [[[| | | t | |]| |]|]; try discriminate.
  destruct (fromisoformat_str t) as [r|] eqn:E; [|discriminate].
  intros [= <-]. exact (fromisoformat_checked t r E).
Qed.

Lemma to_dict_usage r :
  dict_get "usage_in_sec" (to_dict r) = Some (VJson (JNum (usage_in_sec r))).
Proof. reflexivity. Qed.

Lemma to_dict_update r v t :
  dict_set "last_update_at" (VDate t) (dict_set "usage_in_sec" (VJson (JNum v)) (to_dict r)) =
  to_dict (mk_usage_record (last_reset_at r) t v).
Proof. reflexivity. Qed.

(** X3: a persisted file that exists but cannot be opened makes the
    constructor's load raise [OSError], since [open] is outside the
    [try]; the state stays [None]. *)
Theorem init_raises_on_unopenable_file w c :
  w_file w = Some c -> w_can_read w = false ->
  init_state w = (Raise OSError, set_state None w).
Proof. destruct w as [st f cr cw k]. cbn. intros -> ->. reflexivity. Qed.

Lemma init_raises_on_unopenable_file_witness :
  w_file (mk_world None (Some partial_blob) false true 0) = Some partial_blob /\
  w_can_read (mk_world None (Some partial_blob) false true 0) = false /\
  init_state (mk_world None (Some partial_blob) false true 0) =
    (Raise OSError, set_state None (mk_world None (Some partial_blob) false true 0)).
Proof.
  split; [reflexivity|]. split; [reflexivity|].
  apply (init_raises_on_unopenable_file _ partial_blob); reflexivity.
Defined.

(** X4: loading a file that can be opened never raises, and a loaded
    state is either [None] or holds ["last_reset_at"] and
    ["last_update_at"] as valid [datetime]s, naive or aware. *)
Theorem loaded_state_has_timestamps w :
  w_can_read w = true ->
  fst (init_state w) = Ok tt /\
  match w_state (snd (init_state w)) with
  | None => True
  | Some d => exists a b, dict_get "last_reset_at" d = Some a /\
                          dict_get "last_update_at" d = Some b /\
                          valid_ts a = true /\ valid_ts b = true
  end.
Proof.
  intro Hcr. rewrite (init_state_spec w Hcr). split; [reflexivity|]. cbn.
  unfold loaded_state. destruct (w_file w) as [[|[| | | | |ps]]|]; try exact I.
  cbv zeta.
  destruct (parse_ts (dict_of_pairs ps) "last_reset_at") as [a|] eqn:Ea; [|exact I].
  destruct (parse_ts (dict_of_pairs ps) "last_update_at") as [b|] eqn:Eb; [|exact I].
  exists a, b. split; [|split; [|split]].
  - rewrite dict_get_set_neq by discriminate. apply dict_get_set_eq.
  - apply dict_get_set_eq.
  - exact (parse_ts_checked _ _ _ Ea).
  - exact (parse_ts_checked _ _ _ Eb).
Qed.

Lemma loaded_state_has_timestamps_witness :
  w_can_read (mk_world None (Some offset_blob) true true 0) = true /\
  fst (init_state (mk_world None (Some offset_blob) true true 0)) = Ok tt /\
  match w_state (snd (init_state (mk_world None (Some offset_blob) true true 0))) with
  | None => True
  | Some d => exists a b, dict_get "last_reset_at" d = Some a /\
                          dict_get "last_update_at" d = Some b /\
                          valid_ts a = true /\ valid_ts b = true
  end.
Proof.
  split; [reflexivity|].
  apply (loaded_state_has_timestamps (mk_world None (Some offset_blob) true true 0)).
  reflexivity.
Defined.

(** X5: on a non-empty state without ["usage_in_sec"] (a loaded partial
    record), [native_value] and [extra_state_attributes] both raise
    [KeyError] and change nothing. *)
Theorem partial_record_reads_raise unit w d :
  w_state w = Some d -> d <> [] -> dict_has "usage_in_sec" d = false ->
  native_value unit w = (Raise KeyError, w) /\
  extra_state_attributes w = (Raise KeyError, w).
Proof.
  destruct w as [st f cr cw k]. cbn [w_state]. intros -> Hne Hhas.
  assert (Hg : dict_get "usage_in_sec" d = None)
    by (unfold dict_has in Hhas; destruct (dict_get _ d); [discriminate | reflexivity]).
  split.
  - unfold native_value, getitem, bind, get_state, ret, raise.
    cbv beta iota zeta. cbn [w_state].
    replace (falsy (Some d)) with false by (destruct d; [congruence | reflexivity]).
    cbv beta iota. cbn [w_state]. rewrite Hg. reflexivity.
  - unfold extra_state_attributes, bind, get_state, ret, raise.
    cbv beta iota. cbn [w_state]. rewrite (dict_pop_missing _ _ Hg). reflexivity.
Qed.

Lemma partial_record_reads_raise_witness :
  w_state (mk_world (Some [("last_reset_at", VDate (sample_clock 0))]) None true true 0) =
    Some [("last_reset_at", VDate (sample_clock 0))] /\
  [("last_reset_at", VDate (sample_clock 0))] <> [] /\
  dict_has "usage_in_sec" [("last_reset_at", VDate (sample_clock 0))] = false /\
  native_value "h" (mk_world (Some [("last_reset_at", VDate (sample_clock 0))]) None true true 0) =
    (Raise KeyError, mk_world (Some [("last_reset_at", VDate (sample_clock 0))]) None true true 0) /\
  extra_state_attributes (mk_world (Some [("last_reset_at", VDate (sample_clock 0))]) None true true 0) =
    (Raise KeyError, mk_world (Some [("last_reset_at", VDate (sample_clock 0))]) None true true 0).
Proof.
  split; [reflexivity|]. split; [discriminate|]. split; [reflexivity|].
  apply (partial_record_reads_raise "h" _ [("last_reset_at", VDate (sample_clock 0))]);
    [reflexivity | discriminate | reflexivity].
Defined.

(** X6: when the stored ["usage_in_sec"] is not a number (a string read
    from the file, say), every call of [_handle_state_change] raises and
    leaves the state and the file as they were, so the sensor never
    recovers by itself. *)
Theorem non_numeric_usage_blocks_transitions clock e old_state new_state w d v :
  w_state w = Some d -> dict_get "usage_in_sec" d = Some v -> py_num v = None ->
  exists ex, handle_state_change clock e old_state new_state w = (Raise ex, w).
Proof.
  intros Hw Hd Hv.
  destruct old_state as [o|]; [destruct new_state as [n|]|].
  - rewrite (handle_some_spec clock e o n w d v Hw Hd), Hv. eauto.
  - rewrite handle_new_none. eauto.
  - rewrite handle_old_none. eauto.
Qed.

Lemma non_numeric_usage_blocks_transitions_witness :
  w_state (mk_world (Some [("usage_in_sec", VJson (JStr "12"))]) None true true 0) =
    Some [("usage_in_sec", VJson (JStr "12"))] /\
  dict_get "usage_in_sec" [("usage_in_sec", VJson (JStr "12"))] = Some (VJson (JStr "12")) /\
  py_num (VJson (JStr "12")) = None /\
  exists ex, handle_state_change sample_clock "binary_sensor.pump"
               (Some (turned_on_at 0)) (Some (turned_off_at 1000000))
               (mk_world (Some [("usage_in_sec", VJson (JStr "12"))]) None true true 0) =
             (Raise ex, mk_world (Some [("usage_in_sec", VJson (JStr "12"))]) None true true 0).
Proof.
  split; [reflexivity|]. split; [reflexivity|]. split; [reflexivity|].
  apply (non_numeric_usage_blocks_transitions sample_clock "binary_sensor.pump"
           (Some (turned_on_at 0)) (Some (turned_off_at 1000000))
           _ [("usage_in_sec", VJson (JStr "12"))] (VJson (JStr "12")));
    reflexivity.
Defined.

(** X7: [_save_persisted] never raises and never changes the state: the
    file receives the JSON encoding of the state when it can be opened
    for writing, and is left as it was otherwise. *)
Theorem save_never_raises w :
  fst (save_persisted w) = Ok tt /\
  w_state (snd (save_persisted w)) = w_state w /\
  w_file (snd (save_persisted w)) =
    (if w_can_write w then Some (Parsed (encode_state (w_state w))) else w_file w).
Proof. rewrite save_persisted_spec. destruct (w_can_write w); repeat split. Qed.

(** X8: when the file cannot be written, [_handle_state_change] on an
    initialized state still returns normally and updates the in-memory
    total; the file is left as it was. *)
Theorem transition_survives_unwritable_file clock e o n w d u :
  w_can_write w = false ->
  w_state w = Some d -> dict_get "usage_in_sec" d = Some (VJson (JNum u)) ->
  exists w', handle_state_change clock e (Some o) (Some n) w = (Ok tt, w') /\
    w_file w' = w_file w /\
    exists d', w_state w' = Some d' /\
      dict_get "usage_in_sec" d' =
        Some (VJson (JNum (u + total_seconds (last_changed n - last_changed o))%Q)).
Proof.
  intros Hcw Hw Hd. rewrite (handle_some_spec clock e o n w d _ Hw Hd), Hcw.
  cbn [py_num]. eexists. split; [reflexivity|]. split; [reflexivity|].
  eexists. split; [reflexivity|].
  rewrite dict_get_set_neq by discriminate. apply dict_get_set_eq.
Qed.

Lemma transition_survives_unwritable_file_witness :
  w_can_write (mk_world (Some (to_dict (sample_record 5))) None true false 2) = false /\
  w_state (mk_world (Some (to_dict (sample_record 5))) None true false 2) =
    Some (to_dict (sample_record 5)) /\
  dict_get "usage_in_sec" (to_dict (sample_record 5)) = Some (VJson (JNum 5)) /\
  exists w', handle_state_change sample_clock "binary_sensor.pump"
               (Some (turned_on_at 0)) (Some (turned_off_at 2000000))
               (mk_world (Some (to_dict (sample_record 5))) None true false 2) = (Ok tt, w') /\
    w_file w' = w_file (mk_world (Some (to_dict (sample_record 5))) None true false 2) /\
    exists d', w_state w' = Some d' /\
      dict_get "usage_in_sec" d' =
        Some (VJson (JNum (5 + total_seconds (last_changed (turned_off_at 2000000)
                                              - last_changed (turned_on_at 0)))%Q)).
Proof.
  split; [reflexivity|]. split; [reflexivity|]. split; [reflexivity|].
  apply (transition_survives_unwritable_file sample_clock "binary_sensor.pump"
           (turned_on_at 0) (turned_off_at 2000000) _ (to_dict (sample_record 5)) 5);
    reflexivity.
Defined.

(** X9: two successive transitions on an initialized state add their two
    deltas to ["usage_in_sec"] (the handler does not deduplicate), and
    ["last_reset_at"] is untouched. *)
Theorem transitions_accumulate clock e o1 n1 o2 n2 w d u :
  w_state w = Some d -> dict_get "usage_in_sec" d = Some (VJson (JNum u)) ->
  exists d2,
    w_state (snd (handle_state_change clock e (Some o2) (Some n2)
                    (snd (handle_state_change clock e (Some o1) (Some n1) w)))) = Some d2 /\
    dict_get "usage_in_sec" d2 =
      Some (VJson (JNum (u + total_seconds (last_changed n1 - last_changed o1)
                           + total_seconds (last_changed n2 - last_changed o2))%Q)) /\
    dict_get "last_reset_at" d2 = dict_get "last_reset_at" d.
Proof.
  intros Hw Hd. rewrite (handle_some_spec clock e o1 n1 w d _ Hw Hd). cbn [py_num snd].
  set (d1 := dict_set "last_update_at" _ (dict_set "usage_in_sec" _ d)).
  set (w1 := mk_world (Some d1) _ _ _ _).
  assert (Hw1 : w_state (if w_can_write w
                         then set_file (Some (Parsed (encode_state (Some d1)))) w1
                         else w1) = Some d1) by (destruct (w_can_write w); reflexivity).
  assert (Hd1 : dict_get "usage_in_sec" d1 =
                Some (VJson (JNum (u + total_seconds (last_changed n1 - last_changed o1))%Q))).
  { unfold d1. rewrite dict_get_set_neq by discriminate. apply dict_get_set_eq. }
  rewrite (handle_some_spec clock e o2 n2 _ d1 _ Hw1 Hd1). cbn [py_num snd].
  eexists. split; [destruct (w_can_write _); reflexivity|]. split.
  - rewrite dict_get_set_neq by discriminate. apply dict_get_set_eq.
  - unfold d1. rewrite !dict_get_set_neq by discriminate. reflexivity.
Qed.

Lemma transitions_accumulate_witness :
  w_state (sample_world 0) = Some (to_dict (sample_record 0)) /\
  dict_get "usage_in_sec" (to_dict (sample_record 0)) = Some (VJson (JNum 0)) /\
  exists d2,
    w_state (snd (handle_state_change sample_clock "binary_sensor.pump"
                    (Some (turned_on_at 0)) (Some (turned_off_at 1000000))
                    (snd (handle_state_change sample_clock "binary_sensor.pump"
                            (Some (turned_on_at 0)) (Some (turned_off_at 1000000))
                            (sample_world 0))))) = Some d2 /\
    dict_get "usage_in_sec" d2 =
      Some (VJson (JNum (0 + total_seconds (last_changed (turned_off_at 1000000)
                                            - last_changed (turned_on_at 0))
                           + total_seconds (last_changed (turned_off_at 1000000)
                                            - last_changed (turned_on_at 0)))%Q)) /\
    dict_get "last_reset_at" d2 = dict_get "last_reset_at" (to_dict (sample_record 0)).
Proof.
  split; [reflexivity|]. split; [reflexivity|].
  apply (transitions_accumulate sample_clock "binary_sensor.pump"
           (turned_on_at 0) (turned_off_at 1000000) (turned_on_at 0) (turned_off_at 1000000)
           (sample_world 0) (to_dict (sample_record 0)) 0); reflexivity.
Defined.

(** X10: after a transition on a valid record with a readable and
    writable file, a restarted sensor loads exactly the in-memory state
    the transition left: the old ["last_reset_at"], the call's clock
    reading and the new total. *)
Theorem restart_after_transition_recovers clock e o n w r :
  valid_record r = true -> check_fields (clock (w_tick w)) = true ->
  w_state w = Some (to_dict r) -> w_can_write w = true -> w_can_read w = true ->
  w_state (snd (handle_state_change clock e (Some o) (Some n) w)) =
    Some (to_dict (mk_usage_record (last_reset_at r) (clock (w_tick w))
                     (usage_in_sec r + total_seconds (last_changed n - last_changed o))%Q)) /\
  init_state (snd (handle_state_change clock e (Some o) (Some n) w)) =
    (Ok tt, snd (handle_state_change clock e (Some o) (Some n) w)).
Proof.
  intros Hv Hc Hw Hcw Hcr.
  rewrite (handle_some_spec clock e o n w _ _ Hw (to_dict_usage r)), Hcw.
  cbn [py_num snd]. rewrite to_dict_update. split; [reflexivity|].
  rewrite (init_state_encoded (mk_usage_record (last_reset_at r) (clock (w_tick w))
             (usage_in_sec r + total_seconds (last_changed n - last_changed o))%Q)).
  - destruct w; reflexivity.
  - unfold valid_record in *. cbn [last_reset_at last_update_at].
    apply andb_true_iff in Hv as [Ha _]. now rewrite Ha, Hc.
  - exact Hcr.
  - reflexivity.
Qed.

Lemma restart_after_transition_recovers_witness :
  valid_record (sample_record 5) = true /\ check_fields (sample_clock (w_tick (sample_world 5))) = true /\
  w_state (sample_world 5) = Some (to_dict (sample_record 5)) /\
  w_can_write (sample_world 5) = true /\ w_can_read (sample_world 5) = true /\
  w_state (snd (handle_state_change sample_clock "binary_sensor.pump"
                  (Some (turned_on_at 0)) (Some (turned_off_at 4500000)) (sample_world 5))) =
    Some (to_dict (mk_usage_record (last_reset_at (sample_record 5))
                     (sample_clock (w_tick (sample_world 5)))
                     (usage_in_sec (sample_record 5)
                      + total_seconds (last_changed (turned_off_at 4500000)
                                       - last_changed (turned_on_at 0)))%Q)) /\
  init_state (snd (handle_state_change sample_clock "binary_sensor.pump"
                     (Some (turned_on_at 0)) (Some (turned_off_at 4500000)) (sample_world 5))) =
    (Ok tt, snd (handle_state_change sample_clock "binary_sensor.pump"
                   (Some (turned_on_at 0)) (Some (turned_off_at 4500000)) (sample_world 5))).
Proof.
  split; [vm_compute; reflexivity|]. split; [vm_compute; reflexivity|].
  split; [reflexivity|]. split; [reflexivity|]. split; [reflexivity|].
  apply (restart_after_transition_recovers sample_clock "binary_sensor.pump"
           (turned_on_at 0) (turned_off_at 4500000) (sample_world 5) (sample_record 5));
    [vm_compute; reflexivity | vm_compute; reflexivity | reflexivity | reflexivity | reflexivity].
Defined.

(** X11: after [reset_timer] with a readable and writable file (and
    valid clock readings), a restarted sensor loads the zero record the
    reset stored. *)
Theorem restart_after_reset_recovers clock w :
  check_fields (clock (w_tick w)) = true -> check_fields (clock (S (w_tick w))) = true ->
  w_can_write w = true -> w_can_read w = true ->
  init_state (snd (reset_timer clock w)) = (Ok tt, snd (reset_timer clock w)) /\
  w_state (snd (reset_timer clock w)) =
    Some (to_dict (mk_usage_record (clock (w_tick w)) (clock (S (w_tick w))) 0)).
Proof.
  intros Ha Hb Hcw Hcr. rewrite reset_timer_spec, Hcw. cbn [snd].
  split; [|reflexivity].
  rewrite (init_state_encoded (mk_usage_record (clock (w_tick w)) (clock (S (w_tick w))) 0)).
  - destruct w; reflexivity.
  - unfold valid_record. cbn [last_reset_at last_update_at]. now rewrite Ha, Hb.
  - exact Hcr.
  - reflexivity.
Qed.

Lemma restart_after_reset_recovers_witness :
  check_fields (sample_clock (w_tick (sample_world 5))) = true /\
  check_fields (sample_clock (S (w_tick (sample_world 5)))) = true /\
  w_can_write (sample_world 5) = true /\ w_can_read (sample_world 5) = true /\
  init_state (snd (reset_timer sample_clock (sample_world 5))) =
    (Ok tt, snd (reset_timer sample_clock (sample_world 5))) /\
  w_state (snd (reset_timer sample_clock (sample_world 5))) =
    Some (to_dict (mk_usage_record (sample_clock (w_tick (sample_world 5)))
                                   (sample_clock (S (w_tick (sample_world 5)))) 0)).
Proof.
  split; [vm_compute; reflexivity|]. split; [vm_compute; reflexivity|].
  split; [reflexivity|]. split; [reflexivity|].
  apply (restart_after_reset_recovers sample_clock (sample_world 5));
    [vm_compute; reflexivity | vm_compute; reflexivity | reflexivity | reflexivity].
Defined.

(** X12: on a state holding ["usage_in_sec"], [extra_state_attributes]
    returns normally, keeps every other key with its value, and leaves
    the state as it was ([dict(self._state)] is a copy). *)
Theorem attributes_copy_other_keys w d v :
  w_state w = Some d -> dict_get "usage_in_sec" d = Some v ->
  exists d', extra_state_attributes w = (Ok d', w) /\
    forall k, k <> "usage_in_sec" -> dict_get k d' = dict_get k d.
Proof.
  destruct w as [st f cr cw k]. cbn [w_state]. intros -> Hd.
  destruct (dict_pop_present _ _ _ Hd) as [d' [Hp Hg]].
  exists d'. split; [|exact Hg].
  unfold extra_state_attributes, bind, get_state, ret.
  cbv beta iota. cbn [w_state]. rewrite Hp. reflexivity.
Qed.

Lemma attributes_copy_other_keys_witness :
  w_state (sample_world 7) = Some (to_dict (sample_record 7)) /\
  dict_get "usage_in_sec" (to_dict (sample_record 7)) = Some (VJson (JNum 7)) /\
  exists d', extra_state_attributes (sample_world 7) = (Ok d', sample_world 7) /\
    forall k, k <> "usage_in_sec" -> dict_get k d' = dict_get k (to_dict (sample_record 7)).
Proof.
  split; [reflexivity|]. split; [reflexivity|].
  apply (attributes_copy_other_keys (sample_world 7) (to_dict (sample_record 7)) (VJson (JNum 7)));
    reflexivity.
Defined.

(** X13: the subscribed listener, on an ["on"] to ["off"] change and a
    state holding a numeric ["usage_in_sec"], returns normally, adds the
    time between the two changes to the total, and reads the clock once. *)
Theorem listener_accumulates_on_off clock e o n w d u :
  state o = STATE_ON -> state n = STATE_OFF ->
  w_state w = Some d -> dict_get "usage_in_sec" d = Some (VJson (JNum u)) ->
  exists w', on_state_changed clock e (Some o) (Some n) w = (Ok tt, w') /\
    w_tick w' = S (w_tick w) /\
    exists d', w_state w' = Some d' /\
      dict_get "usage_in_sec" d' =
        Some (VJson (JNum (u + total_seconds (last_changed n - last_changed o))%Q)) /\
      dict_get "last_update_at" d' = Some (VDate (clock (w_tick w))).
Proof.
  intros Ho Hn Hw Hd. unfold on_state_changed, state_change_filter, match_state.
  rewrite Ho, Hn. cbn -[handle_state_change].
  rewrite (handle_some_spec clock e o n w d _ Hw Hd). cbn [py_num].
  eexists. split; [reflexivity|].
  split; [destruct (w_can_write w); reflexivity|].
  eexists. split; [destruct (w_can_write w); reflexivity|]. split.
  - rewrite dict_get_set_neq by discriminate. apply dict_get_set_eq.
  - apply dict_get_set_eq.
Qed.

Lemma listener_accumulates_on_off_witness :
  state (turned_on_at 0) = STATE_ON /\ state (turned_off_at 3000000) = STATE_OFF /\
  w_state (sample_world 1) = Some (to_dict (sample_record 1)) /\
  dict_get "usage_in_sec" (to_dict (sample_record 1)) = Some (VJson (JNum 1)) /\
  exists w', on_state_changed sample_clock "binary_sensor.pump"
               (Some (turned_on_at 0)) (Some (turned_off_at 3000000)) (sample_world 1) = (Ok tt, w') /\
    w_tick w' = S (w_tick (sample_world 1)) /\
    exists d', w_state w' = Some d' /\
      dict_get "usage_in_sec" d' =
        Some (VJson (JNum (1 + total_seconds (last_changed (turned_off_at 3000000)
                                              - last_changed (turned_on_at 0)))%Q)) /\
      dict_get "last_update_at" d' = Some (VDate (sample_clock (w_tick (sample_world 1)))).
Proof.
  split; [reflexivity|]. split; [reflexivity|]. split; [reflexivity|]. split; [reflexivity|].
  apply (listener_accumulates_on_off sample_clock "binary_sensor.pump"
           (turned_on_at 0) (turned_off_at 3000000) (sample_world 1) (to_dict (sample_record 1)) 1);
    reflexivity.
Defined.

(** X14: right after [reset_timer], [native_value] returns zero, whatever
    the unit of measurement. *)
Theorem native_value_zero_after_reset clock unit w :
  exists q, bind (reset_timer clock) (fun _ => native_value unit) w =
              (Ok (Some (VJson (JNum q))), snd (reset_timer clock w)) /\ (q == 0)%Q.
Proof.
  unfold bind at 1. rewrite reset_timer_spec. cbn [snd].
  set (w1 := if w_can_write w then _ else _).
  assert (Hs : w_state w1 = Some [("last_reset_at", VDate (clock (w_tick w)));
                                  ("last_update_at", VDate (clock (S (w_tick w))));
                                  ("usage_in_sec", VJson (JNum 0))])
    by (unfold w1; destruct (w_can_write w); reflexivity).
  destruct w1 as [st f cr cw k]. cbn [w_state] in Hs. subst st.
  unfold native_value, getitem, py_div, bind, get_state, ret, raise.
  cbv beta iota zeta. cbn [w_state falsy dict_get py_num].
  destruct (String.eqb (lower unit) "h").
  - eexists. split; [reflexivity|]. reflexivity.
  - destruct (String.eqb (lower unit) "m"); eexists; (split; [reflexivity|reflexivity]).
Qed.

(** X15: a sensor whose file does not exist starts with no state, and its
    [native_value] is [None] (no [KeyError] on the missing total). *)
Theorem fresh_sensor_has_no_value unit w :
  w_file w = None ->
  bind init_state (fun _ => native_value unit) w = (Ok None, set_state None w).
Proof. destruct w as [st f cr cw k]. cbn [w_file]. intros ->. reflexivity. Qed.

Lemma fresh_sensor_has_no_value_witness :
  w_file (mk_world None None true true 0) = None /\
  bind init_state (fun _ => native_value "h") (mk_world None None true true 0) =
    (Ok None, set_state None (mk_world None None true true 0)).
Proof.
  split; [reflexivity|]. apply (fresh_sensor_has_no_value "h" (mk_world None None true true 0)).
  reflexivity.
Defined.

(** X16: a file that can be opened but does not hold a JSON object (text
    [json.load] rejects, or another JSON value) is swallowed by the
    [except]: loading returns normally with no state. *)
Theorem non_object_file_gives_no_state w c :
  w_can_read w = true -> w_file w = Some c ->
  (forall ps, c <> Parsed (JObj ps)) ->
  init_state w = (Ok tt, set_state None w).
Proof.
  intros Hcr Hf Hc. rewrite (init_state_spec w Hcr), Hf.
  destruct c as [|[| | | | |ps]]; try reflexivity.
  exfalso. exact (Hc ps eq_refl).
Qed.

Lemma non_object_file_gives_no_state_witness :
  w_can_read (mk_world None (Some (Parsed (JArr []))) true true 0) = true /\
  w_file (mk_world None (Some (Parsed (JArr []))) true true 0) = Some (Parsed (JArr [])) /\
  (forall ps, Parsed (JArr []) <> Parsed (JObj ps)) /\
  init_state (mk_world None (Some (Parsed (JArr []))) true true 0) =
    (Ok tt, set_state None (mk_world None (Some (Parsed (JArr []))) true true 0)).
Proof.
  split; [reflexivity|]. split; [reflexivity|]. split; [intros ps; discriminate|].
  apply (non_object_file_gives_no_state _ (Parsed (JArr []))).
  - reflexivity.
  - reflexivity.
  - intros ps; discriminate.
Defined.

End Sensor.
